(** * Marine eDNA workflow: depth zones, diversity metrics and normalisation

    A shallow embedding of the quantitative functions of
    [DAG-steps/03_taxonomic_profiling.py] and
    [DAG-steps/05_marine_normalization.py], and the properties their
    specification states about them; then further properties of the same
    functions, of the rest of the profiling module and of the pathway
    corrections of [DAG-steps/04_humann3_execution.py].

    Numbers.  Python floats are idealised as the real numbers of the
    Standard Library: [np.exp] is [exp], [np.log] is [ln], and arithmetic is
    exact.  Rounding, overflow, infinities and NaN are outside the model.

    Containers.  A Python [dict] is an association list in insertion order
    (the order in which Python iterates it); a one-dimensional numpy array is
    a list; a pandas [DataFrame] is an association list from column label to
    column values.

    Control.  A call either returns a value or raises; functions of the
    source whose callers may observe either are written in the [outcome]
    monad, each [return] of the source being a [Returns]. *)

From Stdlib Require Import Reals Lra Lia List String Ascii Bool Arith.
From Stdlib Require Import Permutation.
Import ListNotations.

Local Open Scope R_scope.

(* ===================================================================== *)
(** ** Python values and control *)
(* ===================================================================== *)

Module Py.

(** The exceptions a caller of the embedded functions can meet.
    [KeyError] is what indexing a [DataFrame] or a [dict] with an absent
    label raises.  [ConfigurationError] and [InvalidInputError] are the
    error kinds named by the specification; the source defines neither of
    them and has no [raise] statement in the embedded functions. *)
Inductive exn : Type :=
| KeyError (key : string)
| ConfigurationError
| InvalidInputError.

Inductive outcome (A : Type) : Type :=
| Returns (a : A)
| Raises (e : exn).

Arguments Returns {A} a.
Arguments Raises {A} e.

Definition bind {A B : Type} (c : outcome A) (k : A -> outcome B)
  : outcome B :=
  match c with
  | Returns a => k a
  | Raises e => Raises e
  end.

Definition returned {A : Type} (c : outcome A) : Prop :=
  exists a, c = Returns a.

(** Comparisons of numbers, as booleans. *)
Definition Rleb (x y : R) : bool := if Rle_dec x y then true else false.
Definition Rltb (x y : R) : bool := if Rlt_dec x y then true else false.

(** [sum(xs)]: left to right, starting from 0. *)
Definition sum (xs : list R) : R := fold_left Rplus xs 0.

(** [needle in hay] on strings: substring test. *)
Fixpoint contains (needle hay : string) : bool :=
  String.prefix needle hay
  || match hay with
     | EmptyString => false
     | String _ rest => contains needle rest
     end.

(** [str.lower()], on the ASCII letters (strings are byte strings here;
    bytes outside [A-Z] are left as they are). *)
Definition lower_ascii (c : ascii) : ascii :=
  let n := nat_of_ascii c in
  if (65 <=? n)%nat && (n <=? 90)%nat then ascii_of_nat (n + 32) else c.

Fixpoint lower (s : string) : string :=
  match s with
  | EmptyString => EmptyString
  | String c rest => String (lower_ascii c) (lower rest)
  end.

(** [x in [a, b, ...]] on a list of strings. *)
Definition in_list (x : string) (xs : list string) : bool :=
  existsb (String.eqb x) xs.

(** A [dict] with string keys, in insertion order.  The keys of a Python
    dictionary are distinct; no statement below depends on it. *)
Definition dict (V : Type) : Type := list (string * V).

Definition keys {V : Type} (d : dict V) : list string := map fst d.
Definition values {V : Type} (d : dict V) : list V := map snd d.

Fixpoint get {V : Type} (d : dict V) (k : string) : option V :=
  match d with
  | [] => None
  | (k', v) :: rest => if String.eqb k k' then Some v else get rest k
  end.

(** [d[k]]: the value, or [KeyError]. *)
Definition getitem {V : Type} (d : dict V) (k : string) : outcome V :=
  match get d k with
  | Some v => Returns v
  | None => Raises (KeyError k)
  end.

(** [d[k] = v]: overwrite in place, or append a new key. *)
Fixpoint setitem {V : Type} (d : dict V) (k : string) (v : V) : dict V :=
  match d with
  | [] => [(k, v)]
  | (k', v') :: rest =>
      if String.eqb k k' then (k', v) :: rest
      else (k', v') :: setitem rest k v
  end.

(** [s.add(x)] on a set of strings, kept as a duplicate-free list in the
    order of first insertion.  A Python set has no order; statements about
    such a set speak of membership only. *)
Definition set_add (s : list string) (x : string) : list string :=
  if in_list x s then s else s ++ [x].

(** Truth value of an [Optional[float]] in a condition: [None] and [0.0]
    are false, every other number is true. *)
Definition truthy (x : option R) : bool :=
  match x with
  | None => false
  | Some r => if Req_dec_T r 0 then false else true
  end.

End Py.

Declare Scope py_scope.
Notation "x <- c ;; k" := (Py.bind c (fun x => k))
(at level 61, c at next level, right associativity) : py_scope.
Local Open Scope py_scope.

(* ===================================================================== *)
(** ** The numpy operations the source uses, elementwise on arrays *)
(* ===================================================================== *)

Module np.

Definition ndarray : Type := list R.

(** [np.where(cond, a, b)] with scalar [a] and [b]. *)
Definition where_ (cond : list bool) (a b : R) : ndarray :=
  map (fun c : bool => if c then a else b) cond.

(** [xs < c], [xs > c] against a scalar. *)
Definition lt_scalar (xs : ndarray) (c : R) : list bool :=
  map (fun x => Py.Rltb x c) xs.
Definition gt_scalar (xs : ndarray) (c : R) : list bool :=
  map (fun x => Py.Rltb c x) xs.

(** Boolean-mask indexing [xs[mask]]. *)
Fixpoint mask (xs : ndarray) (m : list bool) : ndarray :=
  match xs, m with
  | x :: xs', b :: m' => if b then x :: mask xs' m' else mask xs' m'
  | _, _ => []
  end.

Definition neg (xs : ndarray) : ndarray := map Ropp xs.

(** Array-with-array arithmetic (equal shapes). *)
Fixpoint zip_with (f : R -> R -> R) (xs ys : ndarray) : ndarray :=
  match xs, ys with
  | x :: xs', y :: ys' => f x y :: zip_with f xs' ys'
  | _, _ => []
  end.
Definition div (xs ys : ndarray) : ndarray := zip_with Rdiv xs ys.
Definition mul (xs ys : ndarray) : ndarray := zip_with Rmult xs ys.

(** Scalar-with-array arithmetic. *)
Definition rdiv_scalar (c : R) (xs : ndarray) : ndarray :=
  map (fun x => c / x) xs.
Definition rsub_scalar (c : R) (xs : ndarray) : ndarray :=
  map (fun x => c - x) xs.
Definition sub_scalar (xs : ndarray) (c : R) : ndarray :=
  map (fun x => x - c) xs.
Definition rmul_scalar (c : R) (xs : ndarray) : ndarray :=
  map (fun x => c * x) xs.
Definition pow_scalar (xs : ndarray) (n : nat) : ndarray :=
  map (fun x => x ^ n) xs.

Definition exp (xs : ndarray) : ndarray := map Rtrigo_def.exp xs.
Definition log (xs : ndarray) : ndarray := map ln xs.
Definition abs (xs : ndarray) : ndarray := map Rabs xs.

(** [np.clip(x, lo, hi)] is [minimum(maximum(x, lo), hi)]. *)
Definition clip1 (x lo hi : R) : R := Rmin (Rmax x lo) hi.
Definition clip (xs : ndarray) (lo hi : R) : ndarray :=
  map (fun x => clip1 x lo hi) xs.

Definition sum (xs : ndarray) : R := fold_left Rplus xs 0.

End np.

(** Configuration dictionaries are passed to several functions; none of the
    embedded ones reads them. *)
Definition Config : Type := Py.dict string.

(* ===================================================================== *)
(** ** [DAG-steps/03_taxonomic_profiling.py] *)
(* ===================================================================== *)

Module TaxonomicProfiling.

Import Py.

(** The five zone names [get_depth_zone] can return. *)
Inductive DepthZone : Type :=
| euphotic
| dysphotic
| bathypelagic
| abyssopelagic
| hadalpelagic.

Definition DepthZone_eqb (a b : DepthZone) : bool :=
  match a, b with
  | euphotic, euphotic
  | dysphotic, dysphotic
  | bathypelagic, bathypelagic
  | abyssopelagic, abyssopelagic
  | hadalpelagic, hadalpelagic => true
  | _, _ => false
  end.

Definition zone_in (z : DepthZone) (zs : list DepthZone) : bool :=
  existsb (DepthZone_eqb z) zs.

(** A taxonomic profile: taxon name to abundance. *)
Definition Profile : Type := dict R.

(** [get_depth_zone(depth_meters)]: a chain of [<=] tests, each branch a
    [return]; there is no test of the sign of the depth. *)
Definition get_depth_zone (depth_meters : R) : outcome DepthZone :=
  if Rleb depth_meters 200 then Returns euphotic
  else if Rleb depth_meters 1000 then Returns dysphotic
  else if Rleb depth_meters 4000 then Returns bathypelagic
  else if Rleb depth_meters 6000 then Returns abyssopelagic
  else Returns hadalpelagic.

(** The body of the deep-water loop of [apply_depth_priors], for one entry
    of [adjusted]. *)
Definition deep_water_adjust (entry : string * R) : string * R :=
  let '(taxon, v) := entry in
  if contains "Prochlorococcus" taxon || contains "Synechococcus" taxon
  then (taxon, v * 0.01)
  else if contains "deep" (lower taxon) || contains "bathy" (lower taxon)
  then (taxon, v * 1.5)
  else (taxon, v).

(** The body of the surface-water loop, for one entry. *)
Definition surface_adjust (entry : string * R) : string * R :=
  let '(taxon, v) := entry in
  if contains "Prochlorococcus" taxon then (taxon, v * 1.3) else (taxon, v).

(** [adjusted] as it stands after the zone-dependent loops and before the
    renormalisation.  The loops update the values of existing keys only, so
    keys and their order are those of the input. *)
Definition zone_adjusted (zone : DepthZone) (taxonomic_assignments : Profile)
  : Profile :=
  let adjusted := taxonomic_assignments in
  if zone_in zone [bathypelagic; abyssopelagic; hadalpelagic]
  then map deep_water_adjust adjusted
  else if DepthZone_eqb zone euphotic
  then map surface_adjust adjusted
  else adjusted.

(** The "Renormalize" step: divide by the total when it is positive. *)
Definition renormalize (adjusted : Profile) : Profile :=
  let total := Py.sum (values adjusted) in
  if Rltb 0 total
  then map (fun kv : string * R => (fst kv, snd kv / total)) adjusted
  else adjusted.

Definition apply_depth_priors
  (taxonomic_assignments : Profile) (depth_meters : R) (config : Config)
  : outcome Profile :=
  zone <- get_depth_zone depth_meters ;;
  let adjusted := zone_adjusted zone taxonomic_assignments in
  Returns (renormalize adjusted).

(** The dictionary literal [calculate_marine_diversity] returns: exactly
    these five keys. *)
Record DiversityMetrics : Type := mkDiversityMetrics {
  shannon : R;
  simpson : R;
  pielou_evenness : R;
  richness : nat;
  marine_specialist_ratio : R
}.

Definition marine_specialists : list string :=
  ["SAR11"; "Prochlorococcus"; "SAR86"; "Thaumarchaeota";
   "Marine_Group_II"; "SAR324"; "Roseobacter"]%string.

Definition calculate_marine_diversity (taxonomic_profile : Profile)
  : outcome DiversityMetrics :=
  let abundances : np.ndarray := values taxonomic_profile in
  let abundances := np.mask abundances (np.gt_scalar abundances 0) in
  let shannon := - np.sum (np.mul abundances (np.log abundances)) in
  let simpson := 1 - np.sum (np.pow_scalar abundances 2) in
  let S := List.length abundances in
  let pielou := if (1 <? S)%nat then shannon / ln (INR S) else 0 in
  let specialist_abundance :=
    Py.sum
      (map snd
         (filter
            (fun kv : string * R =>
               existsb (fun specialist => contains specialist (fst kv))
                       marine_specialists)
            taxonomic_profile)) in
  Returns {| shannon := shannon;
             simpson := simpson;
             pielou_evenness := pielou;
             richness := S;
             marine_specialist_ratio := specialist_abundance |}.

(** [generate_mock_marine_profile(depth_meters)]: the two fixed
    demonstration profiles. *)
Definition generate_mock_marine_profile (depth_meters : option R) : Profile :=
  let surface :=
    match depth_meters with
    | None => true
    | Some d => Rltb d 200
    end in
  if surface then
    [("Prochlorococcus_marinus", 0.25); ("SAR11_clade", 0.20);
     ("Synechococcus", 0.10); ("SAR86_clade", 0.08);
     ("Roseobacter_clade", 0.06); ("SAR116_clade", 0.05);
     ("Flavobacteria", 0.04); ("SAR324_clade", 0.03);
     ("Others", 0.19)]%string
  else
    [("SAR11_clade", 0.18); ("Thaumarchaeota", 0.15);
     ("SAR202_clade", 0.12); ("SAR324_clade", 0.10);
     ("Marine_Group_II_archaea", 0.08); ("SAR406_clade", 0.07);
     ("Nitrospinae", 0.05); ("Deep_sea_bacteria", 0.10);
     ("Others", 0.15)]%string.

Definition terrestrial_indicators : list string :=
  ["Bacillus"; "Streptomyces"; "Escherichia"; "Staphylococcus";
   "Chloroplast"; "Mitochondria"; "Pseudomonas_aeruginosa";
   "Clostridium"; "Mycobacterium"; "plant"]%string.

(** The inner loop of [remove_terrestrial_contamination]: the flag it
    leaves in [is_contaminant].  The loop breaks at the first indicator
    found, so the flag says whether some indicator occurs, whatever the
    order in which the set is walked. *)
Definition is_contaminant (taxon : string) : bool :=
  existsb (fun indicator => contains (lower indicator) (lower taxon))
          terrestrial_indicators.

(** One turn of the outer loop, on the pair [(cleaned, removed)]. *)
Definition contamination_step
  (state : Profile * list string) (item : string * R)
  : Profile * list string :=
  let '(cleaned, removed) := state in
  let '(taxon, abundance) := item in
  if is_contaminant taxon
  then (cleaned, set_add removed taxon)
  else (setitem cleaned taxon abundance, removed).

Definition remove_terrestrial_contamination
  (taxonomic_profile : Profile) (config : Config)
  : outcome (Profile * list string) :=
  let '(cleaned, removed) :=
    fold_left contamination_step taxonomic_profile ([], []) in
  Returns (renormalize cleaned, removed).

(** The dictionary [profile_marine_taxa] returns.  [depth_zone] is a zone
    name or the string 'unknown', here [None]. *)
Record ProfilingResults : Type := mkProfilingResults {
  total_sequences : Z;
  classified_sequences : Z;
  taxonomic_profile : Profile;
  diversity_metrics : DiversityMetrics;
  depth_zone : option DepthZone;
  contamination_removed : Z
}.

(** [profile_marine_taxa]: the placeholder implementation.  Log lines are
    not modelled, but the calls made to produce them are; the two paths and
    the configuration are never read. *)
Definition profile_marine_taxa
  (input_sequences output_profile : string) (config : Config)
  (depth_meters : option R) (educational_mode : bool)
  : outcome ProfilingResults :=
  _ <- (if educational_mode
        then
          match depth_meters with
          | Some d =>
              if truthy depth_meters
              then zone <- get_depth_zone d ;; Returns tt
              else Returns tt
          | None => Returns tt
          end
        else Returns tt) ;;
  depth_zone <-
    (match depth_meters with
     | Some d =>
         if truthy depth_meters
         then zone <- get_depth_zone d ;; Returns (Some zone)
         else Returns None
     | None => Returns None
     end) ;;
  let mock_profile := generate_mock_marine_profile depth_meters in
  diversity <- calculate_marine_diversity mock_profile ;;
  Returns {| total_sequences := 8000;
             classified_sequences := 7200;
             taxonomic_profile := mock_profile;
             diversity_metrics := diversity;
             depth_zone := depth_zone;
             contamination_removed := 0 |}.

End TaxonomicProfiling.

(* ===================================================================== *)
(** ** [DAG-steps/05_marine_normalization.py] *)
(* ===================================================================== *)

Module MarineNormalization.

Import Py.

(** A table with labelled columns of numbers. *)
Definition DataFrame : Type := dict np.ndarray.

Definition calculate_biomass_correction (depths : np.ndarray) : np.ndarray :=
  let scale_factors := np.where_ (np.lt_scalar depths 200) 100 500 in
  let biomass_relative := np.exp (np.div (np.neg depths) scale_factors) in
  let correction := np.rdiv_scalar 1 biomass_relative in
  correction.

Definition calculate_salinity_correction (salinities : np.ndarray)
  : np.ndarray :=
  let optimal_salinity := 35 in
  let efficiency :=
    np.rsub_scalar 1
      (np.rmul_scalar 0.02 (np.abs (np.sub_scalar salinities optimal_salinity)))
  in
  let efficiency := np.clip efficiency 0.7 1 in
  let correction := np.rdiv_scalar 1 efficiency in
  correction.

(** [normalize_marine_abundances].  [normalized] is bound once, to the copy
    of the input table, and is not assigned again: both "Apply correction
    here" places of the source are comments only.  [correction_factors]
    grows by one key per selected correction. *)
Definition normalize_marine_abundances
  (pathway_abundances : DataFrame) (sample_metadata : DataFrame)
  (normalization_method : string) (config : option Config)
  : outcome (DataFrame * dict np.ndarray) :=
  let correction_factors : dict np.ndarray := [] in
  let normalized := pathway_abundances in
  correction_factors <-
    (if in_list normalization_method ["marine_integrated"; "biomass_only"]%string
     then
       depth_m <- getitem sample_metadata "depth_m" ;;
       let biomass_factors := calculate_biomass_correction depth_m in
       Returns (setitem correction_factors "biomass" biomass_factors)
     else Returns correction_factors) ;;
  correction_factors <-
    (if in_list normalization_method ["marine_integrated"; "salinity_only"]%string
     then
       salinity_psu <- getitem sample_metadata "salinity_psu" ;;
       let salinity_factors := calculate_salinity_correction salinity_psu in
       Returns (setitem correction_factors "salinity" salinity_factors)
     else Returns correction_factors) ;;
  Returns (normalized, correction_factors).

End MarineNormalization.

(* ===================================================================== *)
(** ** [DAG-steps/04_humann3_execution.py] *)
(* ===================================================================== *)

Module Humann3Execution.

Import Py.

(** [any(term in pathway.lower() for term in terms)]. *)
Definition any_term_in (terms : list string) (pathway : string) : bool :=
  existsb (fun term => contains term (lower pathway)) terms.

(** A loop of the form [for pathway in corrected: if test(pathway):
    corrected[pathway] *= factor]. *)
Definition scale_matching
  (test : string -> bool) (factor : R) (corrected : dict R) : dict R :=
  map (fun kv : string * R =>
         if test (fst kv) then (fst kv, snd kv * factor) else kv)
      corrected.

(** [apply_environmental_corrections]: three optional steps, each guarded
    by the presence of its key in [metadata]. *)
Definition apply_environmental_corrections
  (abundances : dict R) (metadata : dict R) : outcome (dict R) :=
  let corrected := abundances in
  let corrected :=
    match get metadata "temperature" with
    | Some temp =>
        let reference_temp := 20 in
        let q10_factor := Rpower 2 ((temp - reference_temp) / 10) in
        scale_matching
          (any_term_in ["metabolism"; "respiration"]%string)
          q10_factor corrected
    | None => corrected
    end in
  let corrected :=
    match get metadata "salinity" with
    | Some salinity =>
        if Rltb salinity 30
        then scale_matching
               (fun pathway =>
                  contains "osmotic" (lower pathway)
                  || contains "salt" (lower pathway))
               0.7 corrected
        else corrected
    | None => corrected
    end in
  let corrected :=
    match get metadata "depth" with
    | Some depth =>
        if Rltb 1000 depth
        then scale_matching
               (fun pathway =>
                  contains "pressure" (lower pathway)
                  || contains "piezophile" (lower pathway))
               1.5 corrected
        else corrected
    | None => corrected
    end in
  Returns corrected.

End Humann3Execution.

(* ===================================================================== *)
(** ** Views used to state the properties *)
(* ===================================================================== *)

Import Py TaxonomicProfiling MarineNormalization.

(** The factor computed for one sample: the function applied to the
    one-element array. *)
Definition biomass_factor (d : R) : R :=
  nth 0 (calculate_biomass_correction [d]) 0.

Definition salinity_factor (s : R) : R :=
  nth 0 (calculate_salinity_correction [s]) 0.

(** Zones in order of increasing depth, to compare two of them. *)
Definition zone_rank (z : DepthZone) : nat :=
  match z with
  | euphotic => 0
  | dysphotic => 1
  | bathypelagic => 2
  | abyssopelagic => 3
  | hadalpelagic => 4
  end.

(** A profile that is a distribution: no negative abundance, total 1. *)
Definition is_distribution (profile : Profile) : Prop :=
  Forall (fun kv : string * R => 0 <= snd kv) profile
  /\ Py.sum (values profile) = 1.

(** The factor one pathway receives from [apply_environmental_corrections]
    under given metadata: the product of the factors of the steps that are
    switched on and whose keyword test the pathway passes. *)
Definition pathway_factor (metadata : Py.dict R) (pathway : string) : R :=
  (match Py.get metadata "temperature" with
   | Some temp =>
       if Humann3Execution.any_term_in
            ["metabolism"; "respiration"]%string pathway
       then Rpower 2 ((temp - 20) / 10)
       else 1
   | None => 1
   end)
  * (match Py.get metadata "salinity" with
     | Some salinity =>
         if Py.Rltb salinity 30
            && (Py.contains "osmotic" (Py.lower pathway)
                || Py.contains "salt" (Py.lower pathway))
         then 0.7
         else 1
     | None => 1
     end)
  * (match Py.get metadata "depth" with
     | Some depth =>
         if Py.Rltb 1000 depth
            && (Py.contains "pressure" (Py.lower pathway)
                || Py.contains "piezophile" (Py.lower pathway))
         then 1.5
         else 1
     | None => 1
     end).

(** What the specification asks of [normalize_marine_abundances], in its
    words ("applied multiplicatively to raw abundances"): the table in
    which the abundances of each sample are multiplied by that sample's
    factor.  The columns of the table are the samples, in the row order of
    the metadata.  This is the specification's side of the comparison; the
    source has no counterpart of it. *)
Fixpoint spec_scale_samples (table : DataFrame) (factors : np.ndarray)
  : DataFrame :=
  match table, factors with
  | (sample, column) :: table', f :: factors' =>
      (sample, np.rmul_scalar f column) :: spec_scale_samples table' factors'
  | _, _ => []
  end.

Definition spec_marine_integrated
  (table : DataFrame) (biomass salinity : np.ndarray) : DataFrame :=
  spec_scale_samples (spec_scale_samples table biomass) salinity.


(* ===================================================================== *)
(** ** Basic facts about the Python and numpy layer *)
(* ===================================================================== *)

Section Comparisons.

Variables x y : R.

Lemma Rleb_true : x <= y -> Py.Rleb x y = true.
Proof. intros H; unfold Py.Rleb; destruct (Rle_dec x y); [reflexivity | contradiction]. Qed.

Lemma Rleb_false : y < x -> Py.Rleb x y = false.
Proof. intros H; unfold Py.Rleb; destruct (Rle_dec x y); [lra | reflexivity]. Qed.

Lemma Rltb_true : x < y -> Py.Rltb x y = true.
Proof. intros H; unfold Py.Rltb; destruct (Rlt_dec x y); [reflexivity | contradiction]. Qed.

Lemma Rltb_false : y <= x -> Py.Rltb x y = false.
Proof. intros H; unfold Py.Rltb; destruct (Rlt_dec x y); [lra | reflexivity]. Qed.

End Comparisons.

(** Decide the comparisons of a goal whose operands are known to [lra]. *)
Ltac decide_cmp :=
  repeat first
    [ rewrite Rleb_true by lra
    | rewrite Rleb_false by lra
    | rewrite Rltb_true by lra
    | rewrite Rltb_false by lra ].

(* ===================================================================== *)
(** ** Depth zones *)
(* ===================================================================== *)

(** [get_depth_zone] has no raising path. *)
Lemma get_depth_zone_returns (d : R) : returned (get_depth_zone d).
Proof.
  unfold returned, get_depth_zone.
  repeat match goal with
         | |- context [if ?b then _ else _] => destruct b
         end; eexists; reflexivity.
Qed.

(** C4, as the specification states it, fails: at depth -1 the classifier
    returns the euphotic zone, and so does not raise [InvalidInputError]. *)
Lemma negative_depth_is_classified :
  get_depth_zone (-1) = Returns euphotic
  /\ get_depth_zone (-1) <> Raises InvalidInputError.
Proof.
  assert (H : get_depth_zone (-1) = Returns euphotic).
  { unfold get_depth_zone. now decide_cmp. }
  split; [exact H | rewrite H; discriminate].
Qed.

(** C4, amended: the classifier does not validate the sign of the depth;
    every negative depth satisfies the first test [depth_meters <= 200] and
    is returned as euphotic. *)
Theorem get_depth_zone_negative (d : R) :
  d < 0 -> get_depth_zone d = Returns euphotic.
Proof.
  intros Hd. unfold get_depth_zone. now decide_cmp.
Qed.

Lemma get_depth_zone_negative_witness :
  -5 < 0 /\ get_depth_zone (-5) = Returns euphotic.
Proof.
  split; [lra | apply (get_depth_zone_negative (-5)); lra].
Defined.

(** C5: for non-negative depths the five bands are those of the
    specification, each upper bound inclusive, and the boundary values fall
    where the specification puts them. *)
Theorem get_depth_zone_bands :
  (forall d : R, 0 <= d ->
     (d <= 200 -> get_depth_zone d = Returns euphotic)
     /\ (200 < d <= 1000 -> get_depth_zone d = Returns dysphotic)
     /\ (1000 < d <= 4000 -> get_depth_zone d = Returns bathypelagic)
     /\ (4000 < d <= 6000 -> get_depth_zone d = Returns abyssopelagic)
     /\ (6000 < d -> get_depth_zone d = Returns hadalpelagic))
  /\ get_depth_zone 200 = Returns euphotic
  /\ get_depth_zone 200.0001 = Returns dysphotic
  /\ get_depth_zone 1000 = Returns dysphotic
  /\ get_depth_zone 4000 = Returns bathypelagic
  /\ get_depth_zone 6000 = Returns abyssopelagic
  /\ get_depth_zone 6000.0001 = Returns hadalpelagic.
Proof.
  split; [intros d Hd | ];
    repeat split; try intros Hband;
    unfold get_depth_zone; now decide_cmp.
Qed.

Lemma get_depth_zone_bands_witness :
  0 <= 2000 /\ 1000 < 2000 <= 4000
  /\ get_depth_zone 2000 = Returns bathypelagic.
Proof.
  assert (H0 : 0 <= 2000) by lra.
  assert (Hb : 1000 < 2000 <= 4000) by lra.
  split; [exact H0 | split; [exact Hb | ]].
  exact (proj1 (proj2 (proj2 (proj1 get_depth_zone_bands 2000 H0))) Hb).
Defined.

(** The depths the repository's own test classifies. *)
Example test_depth_zones :
  get_depth_zone 50 = Returns euphotic
  /\ get_depth_zone 500 = Returns dysphotic
  /\ get_depth_zone 2000 = Returns bathypelagic
  /\ get_depth_zone 5000 = Returns abyssopelagic
  /\ get_depth_zone 8000 = Returns hadalpelagic.
Proof. repeat split; unfold get_depth_zone; now decide_cmp. Qed.

(* ===================================================================== *)
(** ** Biomass correction *)
(* ===================================================================== *)

(** Both array functions work sample by sample. *)
Lemma calculate_biomass_correction_map (depths : np.ndarray) :
  calculate_biomass_correction depths = map biomass_factor depths.
Proof.
  unfold biomass_factor, calculate_biomass_correction.
  induction depths as [| d depths IH]; [reflexivity | ].
  cbn in *. f_equal. exact IH.
Qed.

Lemma calculate_salinity_correction_map (salinities : np.ndarray) :
  calculate_salinity_correction salinities = map salinity_factor salinities.
Proof.
  unfold salinity_factor, calculate_salinity_correction.
  induction salinities as [| s salinities IH]; [reflexivity | ].
  cbn in *. f_equal. exact IH.
Qed.

Lemma inv_exp_opp (x : R) : 1 / exp (- x) = exp x.
Proof.
  rewrite exp_Ropp. unfold Rdiv. rewrite Rmult_1_l.
  apply Rinv_inv.
Qed.

Lemma biomass_factor_shallow (d : R) :
  d < 200 -> biomass_factor d = exp (d / 100).
Proof.
  intros Hd. unfold biomass_factor, calculate_biomass_correction. cbn.
  decide_cmp. replace (- d / 100) with (- (d / 100)) by lra.
  apply inv_exp_opp.
Qed.

Lemma biomass_factor_deep (d : R) :
  200 <= d -> biomass_factor d = exp (d / 500).
Proof.
  intros Hd. unfold biomass_factor, calculate_biomass_correction. cbn.
  decide_cmp. replace (- d / 500) with (- (d / 500)) by lra.
  apply inv_exp_opp.
Qed.

Lemma biomass_correction_at_surface :
  calculate_biomass_correction [0] = [1].
Proof.
  rewrite calculate_biomass_correction_map. cbn [map].
  rewrite biomass_factor_shallow by lra.
  replace (0 / 100) with 0 by lra. now rewrite exp_0.
Qed.

(** C2, as the specification states it, fails: the code has no factor 100.
    At the surface the relative biomass is [exp 0 = 1] and the correction
    is 1, not 1/100. *)
Lemma biomass_correction_surface_is_one :
  calculate_biomass_correction [0] = [1]
  /\ calculate_biomass_correction [0] <> [1 / (100 * exp (- 0 / 100))].
Proof.
  pose proof biomass_correction_at_surface as H.
  split; [exact H | ].
  rewrite H. intros Heq. injection Heq as Heq.
  replace (- 0 / 100) with 0 in Heq by lra.
  rewrite exp_0 in Heq. lra.
Qed.

(** C2, amended: for every depth [d >= 0] the correction factor is
    [1 / exp (- d / scale)], with scale 100 below 200 m and 500 from 200 m
    on (the biomass is taken relative to the surface, without the factor
    100); at the surface the relative biomass is 1 and the factor is 1. *)
Theorem biomass_correction_formula :
  (forall d : R, 0 <= d ->
     (d < 200 ->
        calculate_biomass_correction [d] = [1 / exp (- d / 100)])
     /\ (200 <= d ->
        calculate_biomass_correction [d] = [1 / exp (- d / 500)]))
  /\ np.exp (np.div (np.neg [0]) (np.where_ (np.lt_scalar [0] 200) 100 500))
     = [1]
  /\ calculate_biomass_correction [0] = [1].
Proof.
  split; [intros d Hd; split; intros Hs | split].
  - unfold calculate_biomass_correction. cbn. now decide_cmp.
  - unfold calculate_biomass_correction. cbn. now decide_cmp.
  - cbn. decide_cmp. f_equal. replace (- 0 / 100) with 0 by lra. apply exp_0.
  - apply biomass_correction_at_surface.
Qed.

Lemma biomass_correction_formula_witness :
  0 <= 150 /\ 150 < 200
  /\ calculate_biomass_correction [150] = [1 / exp (- 150 / 100)].
Proof.
  assert (H0 : 0 <= 150) by lra.
  assert (Hs : 150 < 200) by lra.
  split; [exact H0 | split; [exact Hs | ]].
  exact (proj1 (proj1 biomass_correction_formula 150 H0) Hs).
Defined.

(** Within one regime the factor grows with depth. *)
Lemma biomass_factor_increasing_shallow (d1 d2 : R) :
  d1 < d2 -> d2 < 200 -> biomass_factor d1 < biomass_factor d2.
Proof.
  intros H12 H2.
  rewrite !biomass_factor_shallow by lra.
  apply exp_increasing. lra.
Qed.

Lemma biomass_factor_increasing_deep (d1 d2 : R) :
  200 <= d1 -> d1 < d2 -> biomass_factor d1 < biomass_factor d2.
Proof.
  intros H1 H12.
  rewrite !biomass_factor_deep by lra.
  apply exp_increasing. lra.
Qed.

(** Across the scale change the comparison is that of [d1/100] with
    [d2/500]. *)
Lemma biomass_factor_across (d1 d2 : R) :
  d1 < 200 -> 200 <= d2 ->
  (biomass_factor d1 < biomass_factor d2 <-> 5 * d1 < d2).
Proof.
  intros H1 H2.
  rewrite (biomass_factor_shallow d1), (biomass_factor_deep d2) by lra.
  split; intros H.
  - apply exp_lt_inv in H. lra.
  - apply exp_increasing. lra.
Qed.

(** C6 is not met by the code.  At the step from 199 m to 200 m the scale
    switches from 100 to 500: the relative biomass computed for 200 m,
    [exp (-0.4)], is larger than the one computed for 199 m, [exp (-1.99)],
    against the function's own description ("biomass decreases
    exponentially with depth"), and the correction factor drops from
    [exp 1.99] to [exp 0.4] instead of growing. *)
Theorem biomass_correction_drops_at_200 :
  np.exp (np.div (np.neg [199; 200])
                 (np.where_ (np.lt_scalar [199; 200] 200) 100 500))
  = [exp (- (199 / 100)); exp (- (200 / 500))]
  /\ exp (- (199 / 100)) < exp (- (200 / 500))
  /\ calculate_biomass_correction [199; 200]
     = [exp (199 / 100); exp (200 / 500)]
  /\ exp (200 / 500) < exp (199 / 100)
  /\ biomass_factor 200 < biomass_factor 199
  /\ ~ (forall d1 d2 : R,
          0 <= d1 -> d1 < d2 -> biomass_factor d1 < biomass_factor d2).
Proof.
  assert (Hdrop : biomass_factor 200 < biomass_factor 199).
  { rewrite (biomass_factor_shallow 199), (biomass_factor_deep 200) by lra.
    apply exp_increasing. lra. }
  split; [ | split; [ | split; [ | split; [ | split ]]]].
  - cbn. decide_cmp.
    replace (- (199) / 100) with (- (199 / 100)) by lra.
    replace (- (200) / 500) with (- (200 / 500)) by lra.
    reflexivity.
  - apply exp_increasing. lra.
  - rewrite calculate_biomass_correction_map. cbn [map].
    now rewrite (biomass_factor_shallow 199), (biomass_factor_deep 200)
      by lra.
  - apply exp_increasing. lra.
  - exact Hdrop.
  - intros Hmono.
    specialize (Hmono 199 200 ltac:(lra) ltac:(lra)). lra.
Qed.

(** How two factors compare, for depths of 0 m or more: within one regime
    the deeper sample has the larger factor; for depths on the two sides of
    the switch the comparison is that of [5 * d1] with [d2]. *)
Lemma biomass_factor_comparison (d1 d2 : R) :
  0 <= d1 -> d1 < d2 ->
  (biomass_factor d1 < biomass_factor d2
   <-> d2 < 200 \/ 200 <= d1 \/ 5 * d1 < d2).
Proof.
  intros H0 H12.
  destruct (Rlt_dec d2 200) as [H2 | H2].
  - split; [now left | intros _].
    now apply biomass_factor_increasing_shallow.
  - apply Rnot_lt_le in H2.
    destruct (Rlt_dec d1 200) as [H1 | H1].
    + rewrite (biomass_factor_across d1 d2 H1 H2).
      split; [intros H; now right; right | intros [H | [H | H]]; lra].
    + apply Rnot_lt_le in H1.
      split; [intros _; right; now left | intros _].
      now apply biomass_factor_increasing_deep.
Qed.

(* ===================================================================== *)
(** ** Salinity correction *)
(* ===================================================================== *)

Lemma salinity_factor_eq (s : R) :
  salinity_factor s = 1 / np.clip1 (1 - 0.02 * Rabs (s - 35)) 0.7 1.
Proof. reflexivity. Qed.

(** C10: the salinity correction of every sample is
    [1 / clip (1 - 0.02 * |salinity - 35|, 0.7, 1.0)], and it takes the same
    value at [35 + x] and at [35 - x]. *)
Theorem salinity_correction_symmetric :
  (forall salinities : np.ndarray,
     calculate_salinity_correction salinities
     = map (fun s => 1 / Rmin (Rmax (1 - 0.02 * Rabs (s - 35)) 0.7) 1)
           salinities)
  /\ (forall x : R,
        calculate_salinity_correction [35 + x]
        = calculate_salinity_correction [35 - x]).
Proof.
  split.
  - intros salinities. rewrite calculate_salinity_correction_map.
    apply map_ext. intros s. apply salinity_factor_eq.
  - intros x. rewrite !calculate_salinity_correction_map. cbn [map].
    rewrite !salinity_factor_eq.
    replace (35 + x - 35) with x by lra.
    replace (35 - x - 35) with (- x) by lra.
    now rewrite Rabs_Ropp.
Qed.

(** A brackish and a hypersaline sample five units either side of 35 PSU
    get the factor 1/0.9; far from 35 the efficiency is clipped at 0.7. *)
Example salinity_factor_30_40 :
  salinity_factor 30 = 1 / 0.9 /\ salinity_factor 40 = 1 / 0.9
  /\ salinity_factor 0 = 1 / 0.7.
Proof.
  rewrite !salinity_factor_eq. unfold np.clip1.
  replace (30 - 35) with (- (5)) by lra.
  replace (40 - 35) with 5 by lra.
  replace (0 - 35) with (- (35)) by lra.
  rewrite !Rabs_Ropp, !Rabs_pos_eq by lra.
  repeat split.
  - rewrite Rmax_left, Rmin_left by lra. f_equal. lra.
  - rewrite Rmax_left, Rmin_left by lra. f_equal. lra.
  - rewrite Rmax_right, Rmin_left by lra. reflexivity.
Qed.

(* ===================================================================== *)
(** ** Sums *)
(* ===================================================================== *)

Lemma fold_left_Rplus_acc (xs : list R) (a : R) :
  fold_left Rplus xs a = a + fold_left Rplus xs 0.
Proof.
  revert a. induction xs as [| x xs IH]; intros a; cbn.
  - lra.
  - rewrite (IH (a + x)), (IH (0 + x)). lra.
Qed.

Lemma np_sum_nil : np.sum [] = 0.
Proof. reflexivity. Qed.

Lemma np_sum_cons (x : R) (xs : list R) : np.sum (x :: xs) = x + np.sum xs.
Proof.
  unfold np.sum. cbn. rewrite fold_left_Rplus_acc. lra.
Qed.

Lemma Py_sum_np_sum (xs : list R) : Py.sum xs = np.sum xs.
Proof. reflexivity. Qed.

Lemma np_sum_repeat (c : R) (n : nat) : np.sum (repeat c n) = INR n * c.
Proof.
  induction n as [| n IH].
  - cbn. lra.
  - cbn [repeat]. rewrite np_sum_cons, IH, S_INR. lra.
Qed.

Lemma np_sum_map_div (xs : list R) (t : R) :
  np.sum (map (fun x => x / t) xs) = np.sum xs / t.
Proof.
  induction xs as [| x xs IH].
  - cbn. unfold np.sum. cbn. lra.
  - cbn [map]. rewrite !np_sum_cons, IH. lra.
Qed.

Lemma np_sum_zeros (xs : list R) :
  Forall (fun x => x = 0) xs -> np.sum xs = 0.
Proof.
  induction 1 as [| x xs Hx _ IH]; [reflexivity | ].
  rewrite np_sum_cons, IH, Hx. lra.
Qed.

(** Masking an array by [xs > 0] is filtering it. *)
Lemma np_mask_gt (xs : np.ndarray) (c : R) :
  np.mask xs (np.gt_scalar xs c) = filter (fun x => Py.Rltb c x) xs.
Proof.
  induction xs as [| x xs IH]; [reflexivity | ].
  cbn. rewrite <- IH. reflexivity.
Qed.

Lemma np_mul_log (xs : np.ndarray) :
  np.mul xs (np.log xs) = map (fun x => x * ln x) xs.
Proof.
  unfold np.mul, np.log.
  induction xs as [| x xs IH]; [reflexivity | ].
  cbn [map np.zip_with]. now rewrite IH.
Qed.

Lemma filter_all_false {A : Type} (p : A -> bool) (xs : list A) :
  Forall (fun x => p x = false) xs -> filter p xs = [].
Proof.
  induction 1 as [| x xs Hx _ IH]; [reflexivity | ].
  cbn. now rewrite Hx.
Qed.

Lemma filter_all_true {A : Type} (p : A -> bool) (xs : list A) :
  Forall (fun x => p x = true) xs -> filter p xs = xs.
Proof.
  induction 1 as [| x xs Hx _ IH]; [reflexivity | ].
  cbn. now rewrite Hx, IH.
Qed.

Lemma Forall_filter {A : Type} (P : A -> Prop) (p : A -> bool) (xs : list A) :
  Forall P xs -> Forall P (filter p xs).
Proof.
  induction 1 as [| x xs Hx _ IH]; cbn; [constructor | ].
  destruct (p x); [constructor | ]; assumption.
Qed.

(** A list all of whose elements are [c] is [repeat c]. *)
Lemma all_equal_repeat (c : R) (xs : list R) :
  Forall (fun x => x = c) xs -> xs = repeat c (List.length xs).
Proof.
  induction 1 as [| x xs Hx _ IH]; [reflexivity | ].
  cbn. now rewrite Hx, <- IH.
Qed.

(* ===================================================================== *)
(** ** Diversity metrics *)
(* ===================================================================== *)

(** [calculate_marine_diversity] has a single [return] and no raising
    path. *)
Lemma calculate_marine_diversity_returns (profile : Profile) :
  returned (calculate_marine_diversity profile).
Proof. unfold returned, calculate_marine_diversity. eexists. reflexivity. Qed.

(** The metrics of a profile in which no abundance is positive. *)
Lemma diversity_no_positive (profile : Profile) :
  Forall (fun kv : string * R => snd kv = 0) profile ->
  calculate_marine_diversity profile
  = Returns {| shannon := 0; simpson := 1; pielou_evenness := 0;
               richness := 0; marine_specialist_ratio := 0 |}.
Proof.
  intros Hzero. unfold calculate_marine_diversity.
  rewrite np_mask_gt.
  rewrite (filter_all_false (fun x => Rltb 0 x) (values profile)).
  2:{ unfold values. apply Forall_map.
      eapply Forall_impl; [ | exact Hzero ].
      intros kv Hkv. cbn beta. rewrite Hkv. apply Rltb_false. lra. }
  cbn [np.log np.mul np.zip_with np.pow_scalar map List.length Nat.ltb Nat.leb].
  rewrite np_sum_nil, Py_sum_np_sum, np_sum_zeros.
  2:{ apply Forall_map, Forall_filter. exact Hzero. }
  do 2 f_equal; lra.
Qed.

(** C7, as the specification states it, fails: on the empty profile the
    Simpson index is [1 - 0 = 1], not 0. *)
Lemma diversity_empty_simpson_is_one :
  exists m : DiversityMetrics,
    calculate_marine_diversity [] = Returns m
    /\ simpson m = 1 /\ simpson m <> 0.
Proof.
  eexists. split; [apply diversity_no_positive; constructor | ].
  cbn. split; lra.
Qed.

(** C7, amended: for a profile with no taxa, or with all abundances zero,
    the function raises nothing and returns richness 0, Shannon 0 and
    evenness 0, but Simpson index 1 (and specialist ratio 0); the result is
    the five-key record and carries no further marker. *)
Theorem diversity_empty_profile (profile : Profile) :
  Forall (fun kv : string * R => snd kv = 0) profile ->
  exists m : DiversityMetrics,
    calculate_marine_diversity profile = Returns m
    /\ richness m = 0%nat
    /\ shannon m = 0
    /\ pielou_evenness m = 0
    /\ simpson m = 1
    /\ marine_specialist_ratio m = 0.
Proof.
  intros Hzero. eexists.
  split; [apply diversity_no_positive; exact Hzero | ].
  cbn. repeat split; reflexivity.
Qed.

Lemma diversity_empty_profile_witness :
  exists m : DiversityMetrics,
    calculate_marine_diversity [("SAR11_clade", 0); ("Others", 0)]%string
    = Returns m
    /\ richness m = 0%nat
    /\ shannon m = 0
    /\ pielou_evenness m = 0
    /\ simpson m = 1
    /\ marine_specialist_ratio m = 0.
Proof.
  apply (diversity_empty_profile [("SAR11_clade", 0); ("Others", 0)]%string).
  repeat constructor.
Defined.

(** The metrics of [n] taxa that all have the same positive abundance
    [a]: the abundances are used as given, without dividing by their
    total. *)
Lemma diversity_all_equal (profile : Profile) (a : R) :
  0 < a ->
  Forall (fun kv : string * R => snd kv = a) profile ->
  exists m : DiversityMetrics,
    calculate_marine_diversity profile = Returns m
    /\ richness m = List.length profile
    /\ shannon m = - (INR (List.length profile) * (a * ln a))
    /\ pielou_evenness m
       = if (1 <? List.length profile)%nat
         then shannon m / ln (INR (List.length profile))
         else 0.
Proof.
  intros Ha Hall. unfold calculate_marine_diversity.
  assert (Hvals : Forall (fun x => x = a) (values profile)).
  { unfold values. apply Forall_map. exact Hall. }
  rewrite np_mask_gt.
  rewrite (filter_all_true (fun x => Rltb 0 x) (values profile)).
  2:{ eapply Forall_impl; [ | exact Hvals ].
      intros x Hx. cbn beta. rewrite Hx. now apply Rltb_true. }
  assert (Hlen : List.length (values profile) = List.length profile).
  { unfold values. apply length_map. }
  eexists. split; [reflexivity | ]. cbn [richness shannon pielou_evenness].
  rewrite Hlen, np_mul_log.
  rewrite (all_equal_repeat a (values profile) Hvals), Hlen.
  rewrite map_repeat, np_sum_repeat.
  repeat split; reflexivity.
Qed.

Lemma ln_INR_pos (n : nat) : (1 < n)%nat -> 0 < ln (INR n).
Proof.
  intros Hn. rewrite <- ln_1. apply ln_increasing; [lra | ].
  replace 1 with (INR 1) by reflexivity. now apply lt_INR.
Qed.

(** C8, as the specification states it, fails on raw counts: the function
    does not divide by the total, so for {A:100, B:100, C:100} the Shannon
    value is [-(3 * (100 * ln 100))], which is negative, and so is the
    evenness. *)
Lemma diversity_raw_counts_not_uniform :
  exists m : DiversityMetrics,
    calculate_marine_diversity [("A", 100); ("B", 100); ("C", 100)]%string
    = Returns m
    /\ richness m = 3%nat
    /\ shannon m = - (3 * (100 * ln 100))
    /\ shannon m <> ln 3
    /\ pielou_evenness m <> 1.
Proof.
  destruct (diversity_all_equal
              [("A", 100); ("B", 100); ("C", 100)]%string 100)
    as (m & Hm & Hrich & Hsh & Hpi); [lra | repeat constructor | ].
  cbn [List.length Nat.ltb Nat.leb] in Hrich, Hsh, Hpi.
  replace (INR 3) with 3 in Hsh, Hpi by (cbn; lra).
  assert (Hln100 : 0 < ln 100).
  { rewrite <- ln_1. apply ln_increasing; lra. }
  assert (Hln3 : 0 < ln 3).
  { rewrite <- ln_1. apply ln_increasing; lra. }
  assert (Hneg : shannon m < 0) by (rewrite Hsh; nra).
  exists m. repeat split; try assumption.
  - lra.
  - rewrite Hpi. intros H1.
    assert (shannon m = ln 3).
    { apply (Rmult_eq_reg_r (/ ln 3)); [ | apply Rinv_neq_0_compat; lra ].
      rewrite Rinv_r by lra. exact H1. }
    lra.
Qed.

(** C8, amended: for [n > 1] taxa whose abundances are all equal and sum
    to 1 (each is [1/n]), the function returns richness [n], Shannon
    diversity [ln n] and Pielou evenness 1. *)
Theorem diversity_uniform_normalized (profile : Profile) (n : nat) :
  (1 < n)%nat ->
  List.length profile = n ->
  Forall (fun kv : string * R => snd kv = 1 / INR n) profile ->
  exists m : DiversityMetrics,
    calculate_marine_diversity profile = Returns m
    /\ richness m = n
    /\ shannon m = ln (INR n)
    /\ pielou_evenness m = 1.
Proof.
  intros Hn Hlen Hall.
  assert (Hpos : 0 < INR n) by (apply lt_0_INR; lia).
  assert (Hlnpos : 0 < ln (INR n)) by now apply ln_INR_pos.
  destruct (diversity_all_equal profile (1 / INR n)) as (m & Hm & Hr & Hs & Hp).
  { apply Rdiv_lt_0_compat; lra. }
  { exact Hall. }
  rewrite Hlen in Hr, Hs, Hp.
  assert (Hshannon : shannon m = ln (INR n)).
  { rewrite Hs. unfold Rdiv. rewrite Rmult_1_l, ln_Rinv by exact Hpos.
    field. lra. }
  exists m. repeat split; try assumption.
  rewrite Hp. apply Nat.ltb_lt in Hn. rewrite Hn, Hshannon.
  field. lra.
Qed.

Lemma diversity_uniform_normalized_witness :
  exists m : DiversityMetrics,
    calculate_marine_diversity
      [("A", 1 / INR 3); ("B", 1 / INR 3); ("C", 1 / INR 3)]%string
    = Returns m
    /\ richness m = 3%nat
    /\ shannon m = ln (INR 3)
    /\ pielou_evenness m = 1.
Proof.
  apply (diversity_uniform_normalized
           [("A", 1 / INR 3); ("B", 1 / INR 3); ("C", 1 / INR 3)]%string 3).
  - lia.
  - reflexivity.
  - repeat constructor.
Defined.

(* ===================================================================== *)
(** ** Depth priors *)
(* ===================================================================== *)

(** The zone-dependent loops and the renormalisation change values only. *)
Lemma zone_adjusted_keys (zone : DepthZone) (profile : Profile) :
  keys (zone_adjusted zone profile) = keys profile.
Proof.
  unfold zone_adjusted, keys.
  destruct (zone_in zone _); [ | destruct (DepthZone_eqb zone euphotic) ];
    try reflexivity;
    rewrite map_map; apply map_ext; intros [taxon v]; cbn.
  - destruct (contains _ taxon || contains _ taxon); [reflexivity | ].
    destruct (contains _ (lower taxon) || contains _ (lower taxon));
      reflexivity.
  - destruct (contains _ taxon); reflexivity.
Qed.

Lemma renormalize_positive (adjusted : Profile) :
  0 < Py.sum (values adjusted) ->
  Py.sum (values (renormalize adjusted)) = 1.
Proof.
  intros Hpos. unfold renormalize. rewrite Rltb_true by exact Hpos.
  unfold values in *. rewrite map_map. cbn [snd].
  remember (Py.sum (map snd adjusted)) as total eqn:Htotal.
  rewrite <- (map_map snd (fun x => x / total)).
  rewrite Py_sum_np_sum, np_sum_map_div, <- Py_sum_np_sum, <- Htotal.
  field. lra.
Qed.

Lemma renormalize_not_positive (adjusted : Profile) :
  Py.sum (values adjusted) <= 0 -> renormalize adjusted = adjusted.
Proof.
  intros Hle. unfold renormalize. now rewrite Rltb_false by exact Hle.
Qed.

(** String tests of the loops, on names of the demonstration profiles. *)
Example taxon_matching :
  contains "Prochlorococcus" "Prochlorococcus_marinus" = true
  /\ contains "deep" (lower "Deep_sea_bacteria") = true
  /\ contains "deep" "Deep_sea_bacteria" = false
  /\ contains "bathy" (lower "SAR11_clade") = false.
Proof. repeat split; reflexivity. Qed.

(** In a deep zone the demonstration deep-water profile has one entry
    changed: the deep-adapted taxon is boosted by 1.5. *)
Example zone_adjusted_mock_deep :
  zone_adjusted bathypelagic (generate_mock_marine_profile (Some 2000))
  = [("SAR11_clade", 0.18); ("Thaumarchaeota", 0.15);
     ("SAR202_clade", 0.12); ("SAR324_clade", 0.10);
     ("Marine_Group_II_archaea", 0.08); ("SAR406_clade", 0.07);
     ("Nitrospinae", 0.05); ("Deep_sea_bacteria", 0.10 * 1.5);
     ("Others", 0.15)]%string.
Proof.
  unfold generate_mock_marine_profile. rewrite Rltb_false by lra.
  reflexivity.
Qed.

(** C9: whatever the profile and the depth, the zone is determined, and
    with [adjusted] the profile after the zone's multipliers: if its sum is
    positive the returned profile sums to 1; if its sum is exactly 0 the
    returned profile is [adjusted] itself. *)
Theorem apply_depth_priors_sums_to_one
  (profile : Profile) (depth_meters : R) (config : Config) :
  exists zone : DepthZone,
    get_depth_zone depth_meters = Returns zone
    /\ (0 < Py.sum (values (zone_adjusted zone profile)) ->
        exists out : Profile,
          apply_depth_priors profile depth_meters config = Returns out
          /\ Py.sum (values out) = 1)
    /\ (Py.sum (values (zone_adjusted zone profile)) = 0 ->
        apply_depth_priors profile depth_meters config
        = Returns (zone_adjusted zone profile)).
Proof.
  destruct (get_depth_zone_returns depth_meters) as [zone Hzone].
  exists zone. split; [exact Hzone | ].
  unfold apply_depth_priors. rewrite Hzone. cbn [bind].
  split.
  - intros Hpos. eexists. split; [reflexivity | ].
    now apply renormalize_positive.
  - intros Hzero. f_equal. apply renormalize_not_positive. lra.
Qed.

Lemma apply_depth_priors_sums_to_one_witness :
  exists out : Profile,
    apply_depth_priors
      [("Prochlorococcus_marinus", 0.25); ("SAR11_clade", 0.75)]%string
      50 []
    = Returns out
    /\ Py.sum (values out) = 1.
Proof.
  destruct (apply_depth_priors_sums_to_one
              [("Prochlorococcus_marinus", 0.25); ("SAR11_clade", 0.75)]%string
              50 [])
    as (zone & Hzone & Hpos & _).
  assert (Hz : get_depth_zone 50 = Returns euphotic).
  { unfold get_depth_zone. now decide_cmp. }
  rewrite Hz in Hzone. injection Hzone as <-.
  apply Hpos.
  unfold Py.sum. cbn. lra.
Defined.

(* ===================================================================== *)
(** ** Normalisation *)
(* ===================================================================== *)

Lemma in_list_false (x : string) (xs : list string) :
  ~ In x xs -> in_list x xs = false.
Proof.
  unfold in_list. induction xs as [| y xs IH]; intros Hnot; [reflexivity | ].
  cbn. rewrite IH by (intros Hin; apply Hnot; now right).
  rewrite orb_false_r. apply String.eqb_neq.
  intros ->. apply Hnot. now left.
Qed.

(** Whatever the selector, a call that returns hands back the table it was
    given: [normalized] is never assigned after the copy. *)
Lemma normalize_returns_input_table
  (table metadata : DataFrame) (method : string) (config : option Config)
  (normalized : DataFrame) (factors : dict np.ndarray) :
  normalize_marine_abundances table metadata method config
  = Returns (normalized, factors) ->
  normalized = table.
Proof.
  unfold normalize_marine_abundances.
  destruct (in_list method _); destruct (in_list method _);
    unfold getitem;
    repeat match goal with
           | |- context [get ?d ?k] => destruct (get d k)
           end;
    cbn; intros H; now inversion H.
Qed.

(** C1 is not met by the code.  For one sample at 100 m and 30 PSU the
    selector [marine_integrated] computes the two factors ([exp 1] and
    [1/0.9]) and records them, but the table it returns is the input table,
    not the table scaled by the factors. *)
Theorem normalize_leaves_abundances_unscaled :
  let table : DataFrame := [("sample_1", [2])]%string in
  let metadata : DataFrame :=
    [("depth_m", [100]); ("salinity_psu", [30])]%string in
  exists biomass salinity : R,
    normalize_marine_abundances table metadata "marine_integrated" None
    = Returns (table, [("biomass", [biomass]); ("salinity", [salinity])]%string)
    /\ biomass = exp 1
    /\ salinity = 1 / 0.9
    /\ spec_marine_integrated table [biomass] [salinity]
       = [("sample_1", [salinity * (biomass * 2)])]%string
    /\ spec_marine_integrated table [biomass] [salinity] <> table.
Proof.
  intros table metadata.
  exists (biomass_factor 100), (salinity_factor 30).
  assert (Hb : biomass_factor 100 = exp 1).
  { rewrite biomass_factor_shallow by lra. f_equal. lra. }
  assert (Hs : salinity_factor 30 = 1 / 0.9).
  { apply salinity_factor_30_40. }
  split; [reflexivity | ].
  split; [exact Hb | ].
  split; [exact Hs | ].
  split; [reflexivity | ].
  unfold spec_marine_integrated, table.
  cbn [spec_scale_samples np.rmul_scalar map].
  rewrite Hb, Hs. intros Heq. injection Heq as Heq.
  pose proof (exp_ineq1 1 ltac:(lra)) as He. nra.
Qed.

(** C3, as the specification states it, fails: an unknown selector is not
    rejected; the call returns the table and an empty factor dictionary. *)
Lemma unknown_selector_is_accepted :
  let table : DataFrame := [("sample_1", [2])]%string in
  let metadata : DataFrame :=
    [("depth_m", [100]); ("salinity_psu", [30])]%string in
  normalize_marine_abundances table metadata "no_such_method" None
  = Returns (table, [])
  /\ normalize_marine_abundances table metadata "no_such_method" None
     <> Raises ConfigurationError.
Proof.
  cbn zeta. split; [reflexivity | discriminate].
Qed.

(** C3, amended: the function does not validate the selector.  For every
    selector string other than the four documented ones it returns
    normally, with the input table and no correction factor. *)
Theorem normalize_unknown_selector
  (table metadata : DataFrame) (method : string) (config : option Config) :
  ~ In method ["marine_integrated"; "biomass_only"; "salinity_only";
               "temperature_only"]%string ->
  normalize_marine_abundances table metadata method config
  = Returns (table, []).
Proof.
  intros Hnot. unfold normalize_marine_abundances.
  rewrite !in_list_false; [reflexivity | | ];
    intros Hin; apply Hnot; cbn in *; intuition.
Qed.

Lemma normalize_unknown_selector_witness :
  normalize_marine_abundances
    [("sample_1", [2])]%string [("depth_m", [100])]%string "q10_only" None
  = Returns ([("sample_1", [2])]%string, []).
Proof.
  apply (normalize_unknown_selector
           [("sample_1", [2])]%string [("depth_m", [100])]%string
           "q10_only" None).
  cbn. intros [H | [H | [H | [H | []]]]]; discriminate H.
Defined.

(** A selected correction whose metadata column is absent raises
    [KeyError]. *)
Example normalize_missing_column :
  normalize_marine_abundances
    [("sample_1", [2])]%string [("depth_m", [100])]%string
    "salinity_only" None
  = Raises (KeyError "salinity_psu").
Proof. reflexivity. Qed.

(* ===================================================================== *)
(** ** Further properties: depth zones *)
(* ===================================================================== *)

(** The band a returned zone stands for. *)
Lemma get_depth_zone_band (d : R) (z : DepthZone) :
  get_depth_zone d = Returns z ->
  match z with
  | euphotic => d <= 200
  | dysphotic => 200 < d <= 1000
  | bathypelagic => 1000 < d <= 4000
  | abyssopelagic => 4000 < d <= 6000
  | hadalpelagic => 6000 < d
  end.
Proof.
  unfold get_depth_zone, Rleb.
  repeat match goal with
         | |- context [Rle_dec ?a ?b] => destruct (Rle_dec a b)
         end;
    intros H; injection H as <-; lra.
Qed.

(** X1: the zone returned for a depth tells the band the depth lies in;
    in particular euphotic only says [d <= 200], negative depths
    included. *)
Theorem get_depth_zone_inv (d : R) (z : DepthZone) :
  get_depth_zone d = Returns z ->
  match z with
  | euphotic => d <= 200
  | dysphotic => 200 < d <= 1000
  | bathypelagic => 1000 < d <= 4000
  | abyssopelagic => 4000 < d <= 6000
  | hadalpelagic => 6000 < d
  end.
Proof. exact (get_depth_zone_band d z). Qed.

Lemma get_depth_zone_inv_witness : 1000 < 2500 <= 4000.
Proof.
  apply (get_depth_zone_inv 2500 bathypelagic).
  unfold get_depth_zone. now decide_cmp.
Defined.

(** X2: deeper water never gets a shallower zone. *)
Theorem get_depth_zone_monotone (d1 d2 : R) (z1 z2 : DepthZone) :
  d1 <= d2 ->
  get_depth_zone d1 = Returns z1 ->
  get_depth_zone d2 = Returns z2 ->
  (zone_rank z1 <= zone_rank z2)%nat.
Proof.
  intros Hle H1 H2.
  apply get_depth_zone_band in H1. apply get_depth_zone_band in H2.
  destruct z1, z2; cbn; try lia; lra.
Qed.

Lemma get_depth_zone_monotone_witness :
  (zone_rank dysphotic <= zone_rank abyssopelagic)%nat.
Proof.
  apply (get_depth_zone_monotone 300 5000 dysphotic abyssopelagic).
  - lra.
  - unfold get_depth_zone. now decide_cmp.
  - unfold get_depth_zone. now decide_cmp.
Defined.

(* ===================================================================== *)
(** ** Further properties: correction factors *)
(* ===================================================================== *)

Lemma inv_between (a b e : R) :
  0 < a -> a <= e -> e <= b -> 1 / b <= 1 / e <= 1 / a.
Proof.
  intros Ha Hae Heb. unfold Rdiv. rewrite !Rmult_1_l.
  split; apply Rinv_le_contravar; lra.
Qed.

Lemma clip1_between (x lo hi : R) :
  lo <= hi -> lo <= np.clip1 x lo hi <= hi.
Proof.
  intros Hlh. unfold np.clip1, Rmin, Rmax.
  repeat match goal with
         | |- context [Rle_dec ?a ?b] => destruct (Rle_dec a b)
         end; lra.
Qed.

Lemma salinity_factor_bounds (s : R) : 1 <= salinity_factor s <= 1 / 0.7.
Proof.
  rewrite salinity_factor_eq.
  pose proof (clip1_between (1 - 0.02 * Rabs (s - 35)) 0.7 1 ltac:(lra))
    as [Hlo Hhi].
  pose proof (inv_between 0.7 1 _ ltac:(lra) Hlo Hhi) as [H1 H2].
  split; [ | exact H2 ].
  replace 1 with (1 / 1) at 1 by lra. exact H1.
Qed.

(** X3: every salinity correction factor lies between 1 and 1/0.7,
    whatever the salinities (negative or absurdly large ones included),
    and there is one factor per sample. *)
Theorem calculate_salinity_correction_bounds (salinities : np.ndarray) :
  List.length (calculate_salinity_correction salinities)
  = List.length salinities
  /\ Forall (fun c => 1 <= c <= 1 / 0.7)
            (calculate_salinity_correction salinities).
Proof.
  rewrite calculate_salinity_correction_map. split.
  - apply length_map.
  - apply Forall_map, Forall_forall. intros s _.
    apply salinity_factor_bounds.
Qed.

(** X4: a sample is left uncorrected for salinity (factor 1) exactly when
    its salinity is 35 PSU. *)
Theorem salinity_correction_one_iff (s : R) :
  calculate_salinity_correction [s] = [1] <-> s = 35.
Proof.
  rewrite calculate_salinity_correction_map. cbn [map].
  rewrite salinity_factor_eq.
  split.
  - intros H. injection H as H.
    pose proof (clip1_between (1 - 0.02 * Rabs (s - 35)) 0.7 1 ltac:(lra))
      as [Hlo Hhi].
    remember (np.clip1 (1 - 0.02 * Rabs (s - 35)) 0.7 1) as e eqn:He.
    assert (He1 : e = 1).
    { assert (Hmul : 1 / e * e = 1) by (field; lra).
      rewrite H in Hmul. lra. }
    assert (Habs : Rabs (s - 35) = 0).
    { pose proof (Rabs_pos (s - 35)) as Hpos.
      rewrite He1 in He. unfold np.clip1, Rmax in He.
      destruct (Rle_dec (1 - 0.02 * Rabs (s - 35)) 0.7) as [Hx | Hx];
        unfold Rmin in He;
        [ destruct (Rle_dec 0.7 1)
        | destruct (Rle_dec (1 - 0.02 * Rabs (s - 35)) 1) ]; lra. }
    destruct (Rcase_abs (s - 35)) as [Hneg | Hnn].
    + rewrite (Rabs_left _ Hneg) in Habs. lra.
    + rewrite (Rabs_right _ Hnn) in Habs. lra.
  - intros ->. replace (35 - 35) with 0 by lra. rewrite Rabs_R0.
    unfold np.clip1. rewrite Rmax_left, Rmin_left by lra.
    f_equal. lra.
Qed.

(** X5: beyond 15 PSU from the optimum the efficiency is clipped at 0.7
    and the factor no longer grows: it is 1/0.7. *)
Theorem salinity_correction_saturates (s : R) :
  15 <= Rabs (s - 35) ->
  calculate_salinity_correction [s] = [1 / 0.7].
Proof.
  intros Hfar. rewrite calculate_salinity_correction_map. cbn [map].
  rewrite salinity_factor_eq. unfold np.clip1.
  rewrite Rmax_right by lra. rewrite Rmin_left by lra. reflexivity.
Qed.

Lemma salinity_correction_saturates_witness :
  calculate_salinity_correction [0] = [1 / 0.7].
Proof.
  apply (salinity_correction_saturates 0).
  replace (0 - 35) with (- (35)) by lra.
  rewrite Rabs_Ropp, Rabs_pos_eq by lra. lra.
Defined.

Lemma biomass_factor_exp (d : R) :
  biomass_factor d = exp (d / 100) \/ biomass_factor d = exp (d / 500).
Proof.
  destruct (Rlt_dec d 200) as [H | H].
  - left. now apply biomass_factor_shallow.
  - right. apply biomass_factor_deep. lra.
Qed.

Lemma exp_ge_1 (x : R) : 0 <= x -> 1 <= exp x.
Proof. intros Hx. pose proof (exp_ineq1_le x). lra. Qed.

Lemma exp_lt_1 (x : R) : x < 0 -> exp x < 1.
Proof. intros Hx. rewrite <- exp_0. now apply exp_increasing. Qed.

(** X6: a biomass correction factor is always positive; it is at least 1
    for a depth of 0 m or more (deep samples are weighted up, never down)
    and, since the sign of the depth is not checked, below 1 for a negative
    depth. *)
Theorem calculate_biomass_correction_bounds (depths : np.ndarray) :
  List.length (calculate_biomass_correction depths) = List.length depths
  /\ Forall (fun c => 0 < c) (calculate_biomass_correction depths)
  /\ (Forall (fun d => 0 <= d) depths ->
      Forall (fun c => 1 <= c) (calculate_biomass_correction depths))
  /\ (Forall (fun d => d < 0) depths ->
      Forall (fun c => c < 1) (calculate_biomass_correction depths)).
Proof.
  rewrite calculate_biomass_correction_map.
  split; [apply length_map | ].
  split; [ | split ].
  - apply Forall_map, Forall_forall. intros d _.
    destruct (biomass_factor_exp d) as [-> | ->]; apply exp_pos.
  - intros Hd. apply Forall_map.
    eapply Forall_impl; [ | exact Hd ]. cbn beta. intros d H0.
    destruct (biomass_factor_exp d) as [-> | ->]; apply exp_ge_1; lra.
  - intros Hd. apply Forall_map.
    eapply Forall_impl; [ | exact Hd ]. cbn beta. intros d H0.
    destruct (biomass_factor_exp d) as [-> | ->]; apply exp_lt_1; lra.
Qed.

Lemma calculate_biomass_correction_bounds_witness :
  Forall (fun c => 1 <= c) (calculate_biomass_correction [0; 50; 1000]).
Proof.
  apply (proj1 (proj2 (proj2
           (calculate_biomass_correction_bounds [0; 50; 1000])))).
  repeat constructor; lra.
Defined.

(* ===================================================================== *)
(** ** Further properties: normalisation *)
(* ===================================================================== *)

(** X7: with both metadata columns present, each selector records exactly
    the factors it names, computed from the whole column: both for
    [marine_integrated] (biomass first), one for [biomass_only] and for
    [salinity_only]; the table comes back as given. *)
Theorem normalize_selected_factors
  (table metadata : DataFrame) (config : option Config)
  (depths salinities : np.ndarray) :
  get metadata "depth_m" = Some depths ->
  get metadata "salinity_psu" = Some salinities ->
  normalize_marine_abundances table metadata "marine_integrated" config
  = Returns (table,
             [("biomass", calculate_biomass_correction depths);
              ("salinity", calculate_salinity_correction salinities)]%string)
  /\ normalize_marine_abundances table metadata "biomass_only" config
     = Returns (table,
                [("biomass", calculate_biomass_correction depths)]%string)
  /\ normalize_marine_abundances table metadata "salinity_only" config
     = Returns (table,
                [("salinity",
                  calculate_salinity_correction salinities)]%string).
Proof.
  intros Hd Hs. unfold normalize_marine_abundances, getitem.
  cbn [in_list existsb String.eqb Ascii.eqb Bool.eqb orb].
  rewrite Hd, Hs. repeat split; reflexivity.
Qed.

Lemma normalize_selected_factors_witness :
  normalize_marine_abundances
    [("sample_1", [2])]%string
    [("depth_m", [100]); ("salinity_psu", [30])]%string
    "biomass_only" None
  = Returns ([("sample_1", [2])]%string,
             [("biomass", calculate_biomass_correction [100])]%string).
Proof.
  apply (proj1 (proj2 (normalize_selected_factors
                         [("sample_1", [2])]%string
                         [("depth_m", [100]); ("salinity_psu", [30])]%string
                         None [100] [30] eq_refl eq_refl))).
Defined.

(** X8: a selector that needs the depth fails with [KeyError] on
    ['depth_m'] when the metadata has no such column, whatever else the
    metadata holds; [salinity_only] does not need the column. *)
Theorem normalize_missing_depth
  (table metadata : DataFrame) (config : option Config) :
  get metadata "depth_m" = None ->
  normalize_marine_abundances table metadata "marine_integrated" config
  = Raises (KeyError "depth_m")
  /\ normalize_marine_abundances table metadata "biomass_only" config
     = Raises (KeyError "depth_m")
  /\ (forall salinities,
        get metadata "salinity_psu" = Some salinities ->
        normalize_marine_abundances table metadata "salinity_only" config
        = Returns (table,
                   [("salinity",
                     calculate_salinity_correction salinities)]%string)).
Proof.
  intros Hd. unfold normalize_marine_abundances, getitem.
  cbn [in_list existsb String.eqb Ascii.eqb Bool.eqb orb].
  rewrite Hd. repeat split.
  intros salinities Hs. now rewrite Hs.
Qed.

Lemma normalize_missing_depth_witness :
  normalize_marine_abundances
    [("sample_1", [2])]%string [("salinity_psu", [30])]%string
    "marine_integrated" None
  = Raises (KeyError "depth_m").
Proof.
  apply (proj1 (normalize_missing_depth
                  [("sample_1", [2])]%string [("salinity_psu", [30])]%string
                  None eq_refl)).
Defined.

(** X9: a selector that needs the salinity fails with [KeyError] on
    ['salinity_psu'] when that column is absent; for [marine_integrated]
    the depth column is looked up first, so this error means the depth was
    found. *)
Theorem normalize_missing_salinity
  (table metadata : DataFrame) (config : option Config) :
  get metadata "salinity_psu" = None ->
  normalize_marine_abundances table metadata "salinity_only" config
  = Raises (KeyError "salinity_psu")
  /\ (normalize_marine_abundances table metadata "marine_integrated" config
      = Raises (KeyError "salinity_psu")
      <-> get metadata "depth_m" <> None).
Proof.
  intros Hs. unfold normalize_marine_abundances, getitem.
  cbn [in_list existsb String.eqb Ascii.eqb Bool.eqb orb].
  rewrite Hs. split; [reflexivity | ].
  destruct (get metadata "depth_m") as [depths | ]; cbn.
  - split; [discriminate | reflexivity].
  - split; [discriminate | intros H; now elim H].
Qed.

Lemma normalize_missing_salinity_witness :
  normalize_marine_abundances
    [("sample_1", [2])]%string [("depth_m", [100])]%string
    "salinity_only" None
  = Raises (KeyError "salinity_psu").
Proof.
  apply (proj1 (normalize_missing_salinity
                  [("sample_1", [2])]%string [("depth_m", [100])]%string
                  None eq_refl)).
Defined.

(** The only exceptions the function can raise are the two [KeyError]s. *)
Lemma normalize_raises_only_key_errors
  (table metadata : DataFrame) (method : string) (config : option Config)
  (e : exn) :
  normalize_marine_abundances table metadata method config = Raises e ->
  e = KeyError "depth_m" \/ e = KeyError "salinity_psu".
Proof.
  unfold normalize_marine_abundances, getitem.
  destruct (in_list method _); destruct (in_list method _);
    repeat match goal with
           | |- context [get ?d ?k] => destruct (get d k)
           end;
    cbn; intros H; inversion H; auto.
Qed.

(** X10: the possible outcomes of a call, whatever its arguments: it
    returns the table it was given, with factors under no other key than
    ['biomass'] and ['salinity'], or it raises [KeyError] for one of the
    two metadata columns.  It raises nothing else. *)
Theorem normalize_outcome_cases
  (table metadata : DataFrame) (method : string) (config : option Config) :
  (exists factors : dict np.ndarray,
      normalize_marine_abundances table metadata method config
      = Returns (table, factors)
      /\ incl (keys factors) ["biomass"; "salinity"]%string)
  \/ normalize_marine_abundances table metadata method config
     = Raises (KeyError "depth_m")
  \/ normalize_marine_abundances table metadata method config
     = Raises (KeyError "salinity_psu").
Proof.
  unfold normalize_marine_abundances, getitem.
  destruct (in_list method _); destruct (in_list method _);
    repeat match goal with
           | |- context [get ?d ?k] => destruct (get d k)
           end;
    cbn; auto;
    left; eexists; (split; [reflexivity | ]);
    intros k Hk; cbn in *; intuition.
Qed.

(* ===================================================================== *)
(** ** Further properties: depth priors *)
(* ===================================================================== *)

Lemma sum_values_cons (kv : string * R) (p : Profile) :
  Py.sum (values (kv :: p)) = snd kv + Py.sum (values p).
Proof. unfold values. cbn [map]. rewrite !Py_sum_np_sum. apply np_sum_cons. Qed.

Lemma sum_values_nil : Py.sum (values ([] : Profile)) = 0.
Proof. reflexivity. Qed.

Lemma sum_values_nonneg (p : Profile) :
  Forall (fun kv : string * R => 0 <= snd kv) p -> 0 <= Py.sum (values p).
Proof.
  induction 1 as [| kv p Hkv _ IH].
  - rewrite sum_values_nil. lra.
  - rewrite sum_values_cons. lra.
Qed.

Lemma renormalize_keys (p : Profile) : keys (renormalize p) = keys p.
Proof.
  unfold renormalize, keys. destruct (Rltb 0 _); [ | reflexivity ].
  rewrite map_map. apply map_ext. reflexivity.
Qed.

Lemma renormalize_total_one (p : Profile) :
  Py.sum (values p) = 1 -> renormalize p = p.
Proof.
  intros H1. unfold renormalize. rewrite H1, Rltb_true by lra.
  rewrite <- (map_id p) at 2. apply map_ext.
  intros [k v]. cbn. f_equal. lra.
Qed.

Lemma renormalize_idempotent (p : Profile) :
  renormalize (renormalize p) = renormalize p.
Proof.
  destruct (Rlt_dec 0 (Py.sum (values p))) as [Hpos | Hle].
  - apply renormalize_total_one. now apply renormalize_positive.
  - rewrite (renormalize_not_positive p) by lra.
    apply renormalize_not_positive. lra.
Qed.

Lemma renormalize_nonneg (p : Profile) :
  Forall (fun kv : string * R => 0 <= snd kv) p ->
  Forall (fun kv : string * R => 0 <= snd kv) (renormalize p).
Proof.
  intros Hnn. unfold renormalize.
  destruct (Rlt_dec 0 (Py.sum (values p))) as [Hpos | Hle].
  - rewrite Rltb_true by exact Hpos. apply Forall_map.
    eapply Forall_impl; [ | exact Hnn ]. cbn. intros kv Hkv.
    apply Rmult_le_pos; [exact Hkv | ].
    left. now apply Rinv_0_lt_compat.
  - rewrite Rltb_false by lra. exact Hnn.
Qed.

(** Multiplying every abundance by at least [c] times itself keeps at
    least [c] times the total. *)
Lemma sum_values_map_lower (f : string * R -> string * R) (c : R)
  (p : Profile) :
  (forall kv, 0 <= snd kv -> c * snd kv <= snd (f kv)) ->
  Forall (fun kv : string * R => 0 <= snd kv) p ->
  c * Py.sum (values p) <= Py.sum (values (map f p)).
Proof.
  intros Hf. induction 1 as [| kv p Hkv _ IH].
  - cbn [map]. rewrite sum_values_nil. lra.
  - cbn [map]. rewrite !sum_values_cons. specialize (Hf kv Hkv). lra.
Qed.

Lemma deep_water_adjust_lower (kv : string * R) :
  0 <= snd kv -> 0.01 * snd kv <= snd (deep_water_adjust kv).
Proof.
  destruct kv as [taxon v]. unfold deep_water_adjust. cbn [snd].
  intros Hv.
  destruct (contains _ taxon || contains _ taxon); [cbn; lra | ].
  destruct (contains _ (lower taxon) || contains _ (lower taxon));
    cbn; lra.
Qed.

Lemma surface_adjust_lower (kv : string * R) :
  0 <= snd kv -> 0.01 * snd kv <= snd (surface_adjust kv).
Proof.
  destruct kv as [taxon v]. unfold surface_adjust. cbn [snd].
  intros Hv. destruct (contains _ taxon); cbn; lra.
Qed.

Lemma zone_adjusted_nonneg (zone : DepthZone) (p : Profile) :
  Forall (fun kv : string * R => 0 <= snd kv) p ->
  Forall (fun kv : string * R => 0 <= snd kv) (zone_adjusted zone p).
Proof.
  intros Hnn. unfold zone_adjusted.
  destruct (zone_in zone _); [ | destruct (DepthZone_eqb zone euphotic) ];
    try exact Hnn;
    apply Forall_map; (eapply Forall_impl; [ | exact Hnn ]);
    intros kv Hkv.
  - pose proof (deep_water_adjust_lower kv Hkv). lra.
  - pose proof (surface_adjust_lower kv Hkv). lra.
Qed.

Lemma zone_adjusted_positive (zone : DepthZone) (p : Profile) :
  Forall (fun kv : string * R => 0 <= snd kv) p ->
  0 < Py.sum (values p) ->
  0 < Py.sum (values (zone_adjusted zone p)).
Proof.
  intros Hnn Hpos. unfold zone_adjusted.
  destruct (zone_in zone _); [ | destruct (DepthZone_eqb zone euphotic) ];
    try exact Hpos.
  - pose proof (sum_values_map_lower deep_water_adjust 0.01 p
                  deep_water_adjust_lower Hnn). lra.
  - pose proof (sum_values_map_lower surface_adjust 0.01 p
                  surface_adjust_lower Hnn). lra.
Qed.

(** X11: the adjustment never adds, drops, renames or reorders taxa: the
    returned profile has the keys of the input, in the same order, at every
    depth. *)
Theorem apply_depth_priors_keys
  (profile : Profile) (depth_meters : R) (config : Config) :
  exists out : Profile,
    apply_depth_priors profile depth_meters config = Returns out
    /\ keys out = keys profile.
Proof.
  destruct (get_depth_zone_returns depth_meters) as [zone Hzone].
  unfold apply_depth_priors. rewrite Hzone. cbn [bind].
  eexists. split; [reflexivity | ].
  now rewrite renormalize_keys, zone_adjusted_keys.
Qed.

(** X12: given abundances none of which is negative and at least one of
    which is positive, the returned profile is a distribution at every
    depth: no negative abundance and total 1.  The multipliers are positive,
    so the degenerate zero total cannot arise from such an input. *)
Theorem apply_depth_priors_distribution
  (profile : Profile) (depth_meters : R) (config : Config) :
  Forall (fun kv : string * R => 0 <= snd kv) profile ->
  0 < Py.sum (values profile) ->
  exists out : Profile,
    apply_depth_priors profile depth_meters config = Returns out
    /\ is_distribution out.
Proof.
  intros Hnn Hpos.
  destruct (get_depth_zone_returns depth_meters) as [zone Hzone].
  unfold apply_depth_priors. rewrite Hzone. cbn [bind].
  eexists. split; [reflexivity | ]. split.
  - now apply renormalize_nonneg, zone_adjusted_nonneg.
  - now apply renormalize_positive, zone_adjusted_positive.
Qed.

Lemma apply_depth_priors_distribution_witness :
  exists out : Profile,
    apply_depth_priors
      [("Synechococcus", 3); ("Deep_sea_bacteria", 1)]%string 2500 []
    = Returns out
    /\ is_distribution out.
Proof.
  apply (apply_depth_priors_distribution
           [("Synechococcus", 3); ("Deep_sea_bacteria", 1)]%string 2500 []).
  - repeat constructor; cbn; lra.
  - unfold Py.sum. cbn. lra.
Defined.

(** X13: in the dysphotic zone (200 m < depth <= 1000 m) no prior applies:
    a profile whose total is 1 is returned as it is, and for any profile a
    second pass returns what the first returned. *)
Theorem apply_depth_priors_dysphotic
  (profile : Profile) (depth_meters : R) (config : Config) :
  200 < depth_meters <= 1000 ->
  (Py.sum (values profile) = 1 ->
   apply_depth_priors profile depth_meters config = Returns profile)
  /\ (forall out : Profile,
        apply_depth_priors profile depth_meters config = Returns out ->
        apply_depth_priors out depth_meters config = Returns out).
Proof.
  intros Hband.
  assert (Hzone : get_depth_zone depth_meters = Returns dysphotic).
  { unfold get_depth_zone. now decide_cmp. }
  unfold apply_depth_priors. rewrite Hzone. cbn [bind].
  unfold zone_adjusted. cbn [zone_in existsb DepthZone_eqb orb].
  split.
  - intros H1. f_equal. now apply renormalize_total_one.
  - intros out H. injection H as <-. f_equal. apply renormalize_idempotent.
Qed.

Lemma apply_depth_priors_dysphotic_witness :
  apply_depth_priors
    [("SAR11_clade", 0.5); ("Thaumarchaeota", 0.5)]%string 500 []
  = Returns [("SAR11_clade", 0.5); ("Thaumarchaeota", 0.5)]%string.
Proof.
  apply (proj1 (apply_depth_priors_dysphotic
                  [("SAR11_clade", 0.5); ("Thaumarchaeota", 0.5)]%string
                  500 [] ltac:(lra))).
  unfold Py.sum. cbn. lra.
Defined.

Lemma div_ge_1 (a t : R) : 0 < t -> t <= a -> 1 <= a / t.
Proof.
  intros Ht Hta. unfold Rdiv.
  replace 1 with (t * / t) by (field; lra).
  apply Rmult_le_compat_r; [ | exact Hta ].
  left. now apply Rinv_0_lt_compat.
Qed.

Lemma div_le_1 (a t : R) : 0 < t -> a <= t -> a / t <= 1.
Proof.
  intros Ht Hat. unfold Rdiv.
  replace 1 with (t * / t) by (field; lra).
  apply Rmult_le_compat_r; [ | exact Hat ].
  left. now apply Rinv_0_lt_compat.
Qed.

Lemma sum_values_map_upper (f : string * R -> string * R) (c : R)
  (p : Profile) :
  (forall kv, 0 <= snd kv -> snd (f kv) <= c * snd kv) ->
  Forall (fun kv : string * R => 0 <= snd kv) p ->
  Py.sum (values (map f p)) <= c * Py.sum (values p).
Proof.
  intros Hf. induction 1 as [| kv p Hkv _ IH].
  - cbn [map]. rewrite sum_values_nil. lra.
  - cbn [map]. rewrite !sum_values_cons. specialize (Hf kv Hkv). lra.
Qed.

Lemma surface_adjust_bounds (kv : string * R) :
  0 <= snd kv ->
  1 * snd kv <= snd (surface_adjust kv) <= 1.3 * snd kv.
Proof.
  destruct kv as [taxon v]. unfold surface_adjust. cbn [snd].
  intros Hv. destruct (contains _ taxon); cbn; lra.
Qed.

Lemma deep_water_adjust_upper (kv : string * R) :
  0 <= snd kv -> snd (deep_water_adjust kv) <= 1.5 * snd kv.
Proof.
  destruct kv as [taxon v]. unfold deep_water_adjust. cbn [snd].
  intros Hv.
  destruct (contains _ taxon || contains _ taxon); [cbn; lra | ].
  destruct (contains _ (lower taxon) || contains _ (lower taxon));
    cbn; lra.
Qed.

Lemma Forall2_map_right {A B : Type} (P : A -> B -> Prop) (g : A -> B)
  (l : list A) :
  Forall (fun x => P x (g x)) l -> Forall2 P l (map g l).
Proof.
  induction 1 as [| x l Hx _ IH]; cbn; constructor; assumption.
Qed.

Lemma scaled_share_up (v m t : R) :
  0 <= v -> 0 < t -> t <= m -> v <= v * m / t.
Proof.
  intros Hv Ht Htm. pose proof (div_ge_1 m t Ht Htm) as H1.
  replace (v * m / t) with (v * (m / t)) by (field; lra). nra.
Qed.

Lemma scaled_share_down (v m t : R) :
  0 <= v -> 0 < t -> m <= t -> v * m / t <= v.
Proof.
  intros Hv Ht Hmt. pose proof (div_le_1 m t Ht Hmt) as H1.
  replace (v * m / t) with (v * (m / t)) by (field; lra). nra.
Qed.

(** X14: the surface prior moves shares in one direction only.  For a
    distribution sampled in the euphotic zone, entry by entry the returned
    profile keeps the taxon, does not lower the abundance of a taxon whose
    name contains 'Prochlorococcus', and does not raise that of any other
    taxon. *)
Theorem apply_depth_priors_euphotic_direction
  (profile : Profile) (depth_meters : R) (config : Config) :
  depth_meters <= 200 ->
  is_distribution profile ->
  exists out : Profile,
    apply_depth_priors profile depth_meters config = Returns out
    /\ Forall2
         (fun kin kout : string * R =>
            fst kout = fst kin
            /\ (contains "Prochlorococcus" (fst kin) = true ->
                snd kin <= snd kout)
            /\ (contains "Prochlorococcus" (fst kin) = false ->
                snd kout <= snd kin))
         profile out.
Proof.
  intros Hd [Hnn H1].
  assert (Hzone : get_depth_zone depth_meters = Returns euphotic).
  { unfold get_depth_zone. now decide_cmp. }
  unfold apply_depth_priors. rewrite Hzone. cbn [bind].
  eexists. split; [reflexivity | ].
  unfold zone_adjusted. cbn [zone_in existsb DepthZone_eqb orb].
  pose proof (sum_values_map_lower surface_adjust 1 profile
                (fun kv H => proj1 (surface_adjust_bounds kv H)) Hnn) as Hlo.
  pose proof (sum_values_map_upper surface_adjust 1.3 profile
                (fun kv H => proj2 (surface_adjust_bounds kv H)) Hnn) as Hhi.
  rewrite H1 in Hlo, Hhi.
  unfold renormalize. rewrite Rltb_true by lra.
  remember (Py.sum (values (map surface_adjust profile))) as t eqn:Ht.
  rewrite map_map. apply Forall2_map_right.
  eapply Forall_impl; [ | exact Hnn ].
  intros [taxon v] Hv. cbn [fst snd] in *. unfold surface_adjust.
  destruct (contains "Prochlorococcus" taxon); cbn [fst snd].
  - split; [reflexivity | split; [intros _ | discriminate]].
    apply scaled_share_up; lra.
  - split; [reflexivity | split; [discriminate | intros _]].
    replace (v / t) with (v * 1 / t) by (field; lra).
    apply scaled_share_down; lra.
Qed.

Lemma apply_depth_priors_euphotic_direction_witness :
  exists out : Profile,
    apply_depth_priors
      [("Prochlorococcus_marinus", 0.25); ("SAR11_clade", 0.75)]%string
      50 []
    = Returns out
    /\ Forall2
         (fun kin kout : string * R =>
            fst kout = fst kin
            /\ (contains "Prochlorococcus" (fst kin) = true ->
                snd kin <= snd kout)
            /\ (contains "Prochlorococcus" (fst kin) = false ->
                snd kout <= snd kin))
         [("Prochlorococcus_marinus", 0.25); ("SAR11_clade", 0.75)]%string
         out.
Proof.
  apply (apply_depth_priors_euphotic_direction
           [("Prochlorococcus_marinus", 0.25); ("SAR11_clade", 0.75)]%string
           50 []).
  - lra.
  - split; [repeat constructor; cbn; lra | unfold Py.sum; cbn; lra].
Defined.

(** X15: the deep-water prior likewise.  For a distribution sampled below
    1000 m, the returned profile does not raise the abundance of a taxon
    named after Prochlorococcus or Synechococcus, and does not lower that
    of a taxon that is not and whose lower-cased name contains 'deep' or
    'bathy'. *)
Theorem apply_depth_priors_deep_direction
  (profile : Profile) (depth_meters : R) (config : Config) :
  1000 < depth_meters ->
  is_distribution profile ->
  exists out : Profile,
    apply_depth_priors profile depth_meters config = Returns out
    /\ Forall2
         (fun kin kout : string * R =>
            fst kout = fst kin
            /\ (contains "Prochlorococcus" (fst kin)
                || contains "Synechococcus" (fst kin) = true ->
                snd kout <= snd kin)
            /\ (contains "Prochlorococcus" (fst kin)
                || contains "Synechococcus" (fst kin) = false ->
                contains "deep" (lower (fst kin))
                || contains "bathy" (lower (fst kin)) = true ->
                snd kin <= snd kout))
         profile out.
Proof.
  intros Hd [Hnn H1].
  destruct (get_depth_zone_returns depth_meters) as [zone Hzone].
  assert (Hdeep : zone_in zone [bathypelagic; abyssopelagic; hadalpelagic]
                  = true).
  { pose proof (get_depth_zone_band _ _ Hzone) as Hinv.
    destruct zone; try reflexivity; lra. }
  unfold apply_depth_priors. rewrite Hzone. cbn [bind].
  eexists. split; [reflexivity | ].
  unfold zone_adjusted. rewrite Hdeep.
  pose proof (sum_values_map_lower deep_water_adjust 0.01 profile
                deep_water_adjust_lower Hnn) as Hlo.
  pose proof (sum_values_map_upper deep_water_adjust 1.5 profile
                deep_water_adjust_upper Hnn) as Hhi.
  rewrite H1 in Hlo, Hhi.
  unfold renormalize. rewrite Rltb_true by lra.
  remember (Py.sum (values (map deep_water_adjust profile))) as t eqn:Ht.
  rewrite map_map. apply Forall2_map_right.
  eapply Forall_impl; [ | exact Hnn ].
  intros [taxon v] Hv. cbn [fst snd] in *. unfold deep_water_adjust.
  destruct (contains "Prochlorococcus" taxon
            || contains "Synechococcus" taxon); cbn [fst snd].
  - split; [reflexivity | split; [intros _ | discriminate]].
    apply scaled_share_down; lra.
  - destruct (contains "deep" (lower taxon)
              || contains "bathy" (lower taxon)); cbn [fst snd];
      (split; [reflexivity | split; [discriminate | intros _ Hboost]]).
    + apply scaled_share_up; lra.
    + discriminate Hboost.
Qed.

Lemma apply_depth_priors_deep_direction_witness :
  exists out : Profile,
    apply_depth_priors
      [("Synechococcus", 0.5); ("Deep_sea_bacteria", 0.5)]%string 2500 []
    = Returns out
    /\ Forall2
         (fun kin kout : string * R =>
            fst kout = fst kin
            /\ (contains "Prochlorococcus" (fst kin)
                || contains "Synechococcus" (fst kin) = true ->
                snd kout <= snd kin)
            /\ (contains "Prochlorococcus" (fst kin)
                || contains "Synechococcus" (fst kin) = false ->
                contains "deep" (lower (fst kin))
                || contains "bathy" (lower (fst kin)) = true ->
                snd kin <= snd kout))
         [("Synechococcus", 0.5); ("Deep_sea_bacteria", 0.5)]%string out.
Proof.
  apply (apply_depth_priors_deep_direction
           [("Synechococcus", 0.5); ("Deep_sea_bacteria", 0.5)]%string
           2500 []).
  - lra.
  - split; [repeat constructor; cbn; lra | unfold Py.sum; cbn; lra].
Defined.

Lemma np_sum_map_scale (c : R) (xs : list R) :
  np.sum (map (fun x => c * x) xs) = c * np.sum xs.
Proof.
  induction xs as [| x xs IH].
  - cbn. unfold np.sum. cbn. lra.
  - cbn [map]. rewrite !np_sum_cons, IH. lra.
Qed.

Lemma zone_adjusted_scale (zone : DepthZone) (c : R) (p : Profile) :
  zone_adjusted zone (map (fun kv : string * R => (fst kv, c * snd kv)) p)
  = map (fun kv : string * R => (fst kv, c * snd kv)) (zone_adjusted zone p).
Proof.
  unfold zone_adjusted.
  destruct (zone_in zone _); [ | destruct (DepthZone_eqb zone euphotic) ];
    try reflexivity;
    rewrite !map_map; apply map_ext; intros [taxon v]; cbn [fst snd].
  - unfold deep_water_adjust.
    destruct (contains _ taxon || contains _ taxon);
      [cbn; f_equal; lra | ].
    destruct (contains _ (lower taxon) || contains _ (lower taxon));
      cbn; f_equal; lra.
  - unfold surface_adjust.
    destruct (contains _ taxon); cbn; f_equal; lra.
Qed.

Lemma renormalize_scale (c : R) (p : Profile) :
  0 < c -> 0 < Py.sum (values p) ->
  renormalize (map (fun kv : string * R => (fst kv, c * snd kv)) p)
  = renormalize p.
Proof.
  intros Hc Hpos. unfold renormalize.
  assert (Hsum : Py.sum (values (map (fun kv : string * R =>
                                        (fst kv, c * snd kv)) p))
                 = c * Py.sum (values p)).
  { unfold values. rewrite map_map. cbn [snd].
    rewrite <- (map_map snd (fun x => c * x)).
    rewrite !Py_sum_np_sum. apply np_sum_map_scale. }
  rewrite Hsum.
  rewrite !Rltb_true by nra.
  rewrite map_map. apply map_ext. intros [k v]. cbn [fst snd].
  f_equal. field. lra.
Qed.

(** X16: the result does not depend on the unit of the abundances.  When
    the adjusted total is positive, multiplying every input abundance by
    the same positive constant (raw counts instead of fractions, say)
    gives the same returned profile. *)
Theorem apply_depth_priors_scale_invariant
  (profile : Profile) (depth_meters c : R) (config : Config)
  (zone : DepthZone) :
  0 < c ->
  get_depth_zone depth_meters = Returns zone ->
  0 < Py.sum (values (zone_adjusted zone profile)) ->
  apply_depth_priors
    (map (fun kv : string * R => (fst kv, c * snd kv)) profile)
    depth_meters config
  = apply_depth_priors profile depth_meters config.
Proof.
  intros Hc Hzone Hpos. unfold apply_depth_priors.
  rewrite Hzone. cbn [bind]. f_equal.
  rewrite zone_adjusted_scale. now apply renormalize_scale.
Qed.

Lemma apply_depth_priors_scale_invariant_witness :
  apply_depth_priors
    (map (fun kv : string * R => (fst kv, 100 * snd kv))
         [("Prochlorococcus_marinus", 0.25); ("SAR11_clade", 0.75)]%string)
    50 []
  = apply_depth_priors
      [("Prochlorococcus_marinus", 0.25); ("SAR11_clade", 0.75)]%string
      50 [].
Proof.
  apply (apply_depth_priors_scale_invariant
           [("Prochlorococcus_marinus", 0.25); ("SAR11_clade", 0.75)]%string
           50 100 [] euphotic).
  - lra.
  - unfold get_depth_zone. now decide_cmp.
  - unfold Py.sum. cbn. lra.
Defined.

(* ===================================================================== *)
(** ** Further properties: diversity metrics *)
(* ===================================================================== *)

Lemma np_sum_app (xs ys : list R) :
  np.sum (xs ++ ys) = np.sum xs + np.sum ys.
Proof.
  induction xs as [| x xs IH].
  - cbn [app]. rewrite np_sum_nil. lra.
  - cbn [app]. rewrite !np_sum_cons, IH. lra.
Qed.

Lemma np_sum_nonneg (xs : list R) :
  Forall (fun x => 0 <= x) xs -> 0 <= np.sum xs.
Proof.
  induction 1 as [| x xs Hx _ IH].
  - rewrite np_sum_nil. lra.
  - rewrite np_sum_cons. lra.
Qed.

Lemma np_sum_filter_positive (xs : list R) :
  Forall (fun x => 0 <= x) xs ->
  np.sum (filter (fun x => Rltb 0 x) xs) = np.sum xs.
Proof.
  induction 1 as [| x xs Hx _ IH]; [reflexivity | ].
  cbn [filter]. destruct (Rlt_dec 0 x) as [Hpos | Hzero].
  - rewrite Rltb_true by exact Hpos. rewrite !np_sum_cons, IH. reflexivity.
  - rewrite Rltb_false by lra. rewrite np_sum_cons, IH. lra.
Qed.

Lemma filter_positive_all (xs : list R) :
  Forall (fun x => 0 < x) (filter (fun x => Rltb 0 x) xs).
Proof.
  induction xs as [| x xs IH]; [constructor | ].
  cbn [filter]. destruct (Rlt_dec 0 x) as [Hpos | Hzero].
  - rewrite Rltb_true by exact Hpos. now constructor.
  - rewrite Rltb_false by lra. exact IH.
Qed.

Lemma np_sum_bounds_element (xs : list R) :
  Forall (fun x => 0 < x) xs ->
  Forall (fun x => x <= np.sum xs) xs.
Proof.
  induction 1 as [| x xs Hx Hxs IH]; [constructor | ].
  assert (Hnn : 0 <= np.sum xs).
  { apply np_sum_nonneg. eapply Forall_impl; [ | exact Hxs ].
    cbn. intros; lra. }
  rewrite np_sum_cons. constructor; [lra | ].
  eapply Forall_impl; [ | exact IH ]. cbn. intros y Hy. lra.
Qed.

Lemma ln_le_minus_1 (y : R) : 0 < y -> ln y <= y - 1.
Proof.
  intros Hy. pose proof (exp_ineq1_le (y - 1)) as He.
  replace (1 + (y - 1)) with y in He by lra.
  destruct He as [He | He].
  - left. rewrite <- (ln_exp (y - 1)). now apply ln_increasing.
  - right. rewrite He at 1. apply ln_exp.
Qed.

Lemma ln_nonpos (x : R) : 0 < x -> x <= 1 -> ln x <= 0.
Proof. intros H0 H1. pose proof (ln_le_minus_1 x H0). lra. Qed.

(** One term of Gibbs' inequality. *)
Lemma entropy_term_upper (c x : R) :
  0 < c -> 0 < x -> - (x * ln x) <= x * ln c + / c - x.
Proof.
  intros Hc Hx.
  assert (Hcx : 0 < c * x) by now apply Rmult_lt_0_compat.
  pose proof (ln_le_minus_1 (/ (c * x)) (Rinv_0_lt_compat _ Hcx)) as Hln.
  rewrite ln_Rinv, ln_mult in Hln by assumption.
  assert (Hmul : x * - (ln c + ln x) <= x * (/ (c * x) - 1)).
  { apply Rmult_le_compat_l; lra. }
  replace (x * (/ (c * x) - 1)) with (/ c - x) in Hmul by (field; lra).
  lra.
Qed.

Lemma entropy_upper (c : R) (xs : list R) :
  0 < c -> Forall (fun x => 0 < x) xs ->
  - np.sum (map (fun x => x * ln x) xs)
  <= np.sum xs * ln c + INR (List.length xs) * / c - np.sum xs.
Proof.
  intros Hc. induction 1 as [| x xs Hx _ IH].
  - cbn [map List.length INR]. rewrite np_sum_nil. lra.
  - cbn [map List.length]. rewrite S_INR, !np_sum_cons.
    pose proof (entropy_term_upper c x Hc Hx). lra.
Qed.

Lemma entropy_nonneg (xs : list R) :
  Forall (fun x => 0 < x <= 1) xs ->
  0 <= - np.sum (map (fun x => x * ln x) xs).
Proof.
  induction 1 as [| x xs [H0 H1] _ IH].
  - cbn [map]. rewrite np_sum_nil. lra.
  - cbn [map]. rewrite np_sum_cons.
    pose proof (ln_nonpos x H0 H1). nra.
Qed.

Lemma squares_bounds (xs : list R) :
  Forall (fun x => 0 < x <= 1) xs ->
  0 <= np.sum (np.pow_scalar xs 2) <= np.sum xs
  /\ (xs <> [] -> 0 < np.sum (np.pow_scalar xs 2)).
Proof.
  unfold np.pow_scalar.
  induction 1 as [| x xs [H0 H1] _ [[IHlo IHhi] _]].
  - cbn [map]. rewrite np_sum_nil. split; [lra | intros H; now elim H].
  - cbn [map]. rewrite !np_sum_cons.
    assert (Hsq : 0 < x ^ 2 <= x) by (cbn; nra).
    repeat split; try intros _; lra.
Qed.

Lemma sub_sum_bounds (f : string * R -> bool) (p : Profile) :
  Forall (fun kv : string * R => 0 <= snd kv) p ->
  0 <= Py.sum (map snd (filter f p)) <= Py.sum (values p).
Proof.
  induction 1 as [| kv p Hkv _ IH].
  - cbn. unfold Py.sum. cbn. lra.
  - rewrite sum_values_cons. cbn [filter].
    destruct (f kv).
    + change (map snd (kv :: filter f p)) with (values (kv :: filter f p)).
      rewrite sum_values_cons. unfold values in *. lra.
    + lra.
Qed.

(** Ranges of the metrics of a distribution. *)
Lemma diversity_ranges_of_distribution (profile : Profile) :
  is_distribution profile ->
  exists m : DiversityMetrics,
    calculate_marine_diversity profile = Returns m
    /\ (1 <= richness m)%nat
    /\ 0 <= shannon m <= ln (INR (richness m))
    /\ 0 <= pielou_evenness m <= 1
    /\ 0 <= simpson m < 1
    /\ 0 <= marine_specialist_ratio m <= 1.
Proof.
  intros [Hnn H1]. unfold calculate_marine_diversity.
  rewrite np_mask_gt, np_mul_log.
  remember (filter (fun x => Rltb 0 x) (values profile)) as xs eqn:Hxs.
  assert (Hval : Forall (fun x => 0 <= x) (values profile)).
  { unfold values. now apply Forall_map. }
  assert (Hsum : np.sum xs = 1).
  { rewrite Hxs, np_sum_filter_positive by exact Hval.
    now rewrite <- Py_sum_np_sum. }
  assert (Hpos : Forall (fun x => 0 < x) xs).
  { rewrite Hxs. apply filter_positive_all. }
  assert (Hunit : Forall (fun x => 0 < x <= 1) xs).
  { pose proof (np_sum_bounds_element xs Hpos) as Hb. rewrite Hsum in Hb.
    rewrite Forall_forall in *. intros x Hx. split; auto. }
  assert (Hne : xs <> []).
  { intros ->. rewrite np_sum_nil in Hsum. lra. }
  assert (Hlen : (1 <= List.length xs)%nat).
  { destruct xs; [now elim Hne | cbn; lia]. }
  assert (Hn : 0 < INR (List.length xs)) by (apply lt_0_INR; lia).
  pose proof (entropy_nonneg xs Hunit) as Hs0.
  pose proof (entropy_upper (INR (List.length xs)) xs Hn Hpos) as Hs1.
  rewrite Hsum in Hs1.
  replace (1 * ln (INR (List.length xs))
           + INR (List.length xs) * / INR (List.length xs) - 1)
    with (ln (INR (List.length xs))) in Hs1 by (field; lra).
  pose proof (squares_bounds xs Hunit) as [[Hq0 Hq1] Hq2].
  specialize (Hq2 Hne). rewrite Hsum in Hq1.
  pose proof (sub_sum_bounds
                (fun kv : string * R =>
                   existsb (fun specialist => contains specialist (fst kv))
                           marine_specialists)
                profile Hnn) as Hratio.
  rewrite H1 in Hratio.
  eexists. split; [reflexivity | ].
  cbn [richness shannon pielou_evenness simpson marine_specialist_ratio].
  repeat split; try lra; try exact Hlen; try apply Hratio.
  - destruct (1 <? List.length xs)%nat eqn:Hgt; [ | lra ].
    apply Nat.ltb_lt in Hgt. pose proof (ln_INR_pos _ Hgt) as Hln.
    apply Rmult_le_pos; [lra | ]. left. now apply Rinv_0_lt_compat.
  - destruct (1 <? List.length xs)%nat eqn:Hgt; [ | lra ].
    apply Nat.ltb_lt in Hgt. pose proof (ln_INR_pos _ Hgt) as Hln.
    now apply div_le_1.
Qed.

(** X17: on a distribution (no negative abundance, total 1) every metric
    is in its textbook range: at least one taxon is counted, Shannon
    diversity lies between 0 and the logarithm of the richness, Pielou
    evenness and the specialist ratio between 0 and 1, and the Simpson
    index in [0, 1). *)
Theorem calculate_marine_diversity_ranges (profile : Profile) :
  is_distribution profile ->
  exists m : DiversityMetrics,
    calculate_marine_diversity profile = Returns m
    /\ (1 <= richness m)%nat
    /\ 0 <= shannon m <= ln (INR (richness m))
    /\ 0 <= pielou_evenness m <= 1
    /\ 0 <= simpson m < 1
    /\ 0 <= marine_specialist_ratio m <= 1.
Proof. exact (diversity_ranges_of_distribution profile). Qed.

Lemma calculate_marine_diversity_ranges_witness :
  exists m : DiversityMetrics,
    calculate_marine_diversity
      [("SAR11_clade", 0.5); ("Others", 0); ("Thaumarchaeota", 0.5)]%string
    = Returns m
    /\ (1 <= richness m)%nat
    /\ 0 <= shannon m <= ln (INR (richness m))
    /\ 0 <= pielou_evenness m <= 1
    /\ 0 <= simpson m < 1
    /\ 0 <= marine_specialist_ratio m <= 1.
Proof.
  apply (calculate_marine_diversity_ranges
           [("SAR11_clade", 0.5); ("Others", 0);
            ("Thaumarchaeota", 0.5)]%string).
  split; [repeat constructor; cbn; lra | unfold Py.sum; cbn; lra].
Defined.

(** X18: a taxon recorded with abundance 0 has no effect on any metric,
    wherever it stands in the profile. *)
Theorem calculate_marine_diversity_ignores_zero
  (before after : Profile) (taxon : string) :
  calculate_marine_diversity (before ++ (taxon, 0) :: after)
  = calculate_marine_diversity (before ++ after).
Proof.
  unfold calculate_marine_diversity. rewrite !np_mask_gt.
  assert (Hfilter :
            filter (fun x => Rltb 0 x) (values (before ++ (taxon, 0) :: after))
            = filter (fun x => Rltb 0 x) (values (before ++ after))).
  { unfold values. rewrite !map_app, !filter_app. cbn [map filter snd].
    now rewrite Rltb_false by lra. }
  rewrite Hfilter.
  assert (Hratio :
            forall f : string * R -> bool,
              Py.sum (map snd (filter f (before ++ (taxon, 0) :: after)))
              = Py.sum (map snd (filter f (before ++ after)))).
  { intros f. rewrite !filter_app. cbn [filter].
    destruct (f (taxon, 0)); [ | reflexivity ].
    rewrite !map_app. cbn [map snd].
    rewrite !Py_sum_np_sum, !np_sum_app, np_sum_cons. lra. }
  now rewrite Hratio.
Qed.

Lemma np_sum_Permutation (xs ys : list R) :
  Permutation xs ys -> np.sum xs = np.sum ys.
Proof.
  induction 1 as [| x xs ys _ IH | x y xs | xs ys zs _ IH1 _ IH2].
  - reflexivity.
  - rewrite !np_sum_cons, IH. reflexivity.
  - rewrite !np_sum_cons. lra.
  - now rewrite IH1.
Qed.

Lemma filter_Permutation {A : Type} (f : A -> bool) (xs ys : list A) :
  Permutation xs ys -> Permutation (filter f xs) (filter f ys).
Proof.
  induction 1 as [| x xs ys _ IH | x y xs | xs ys zs _ IH1 _ IH2].
  - constructor.
  - cbn. destruct (f x); [now constructor | exact IH].
  - cbn. destruct (f x), (f y); try apply Permutation_refl.
    apply perm_swap.
  - now transitivity (filter f ys).
Qed.

(** X19: the metrics do not depend on the order of the entries: two
    profiles with the same entries in different orders get the same five
    values. *)
Theorem calculate_marine_diversity_order_irrelevant (p q : Profile) :
  Permutation p q ->
  calculate_marine_diversity p = calculate_marine_diversity q.
Proof.
  intros Hperm. unfold calculate_marine_diversity.
  rewrite !np_mask_gt, !np_mul_log.
  assert (Hxs : Permutation (filter (fun x => Rltb 0 x) (values p))
                            (filter (fun x => Rltb 0 x) (values q))).
  { apply filter_Permutation. unfold values. now apply Permutation_map. }
  assert (Hshannon :
            np.sum (map (fun x => x * ln x)
                        (filter (fun x => Rltb 0 x) (values p)))
            = np.sum (map (fun x => x * ln x)
                          (filter (fun x => Rltb 0 x) (values q)))).
  { apply np_sum_Permutation. now apply Permutation_map. }
  assert (Hsimpson :
            np.sum (np.pow_scalar (filter (fun x => Rltb 0 x) (values p)) 2)
            = np.sum (np.pow_scalar
                        (filter (fun x => Rltb 0 x) (values q)) 2)).
  { apply np_sum_Permutation. unfold np.pow_scalar.
    now apply Permutation_map. }
  assert (Hratio :
            forall f : string * R -> bool,
              Py.sum (map snd (filter f p)) = Py.sum (map snd (filter f q))).
  { intros f. rewrite !Py_sum_np_sum. apply np_sum_Permutation.
    apply Permutation_map. now apply filter_Permutation. }
  rewrite Hshannon, Hsimpson, Hratio, (Permutation_length Hxs).
  reflexivity.
Qed.

Lemma calculate_marine_diversity_order_irrelevant_witness :
  calculate_marine_diversity
    [("SAR11_clade", 0.4); ("Others", 0.6)]%string
  = calculate_marine_diversity
      [("Others", 0.6); ("SAR11_clade", 0.4)]%string.
Proof.
  apply (calculate_marine_diversity_order_irrelevant
           [("SAR11_clade", 0.4); ("Others", 0.6)]%string
           [("Others", 0.6); ("SAR11_clade", 0.4)]%string).
  apply perm_swap.
Defined.

(* ===================================================================== *)
(** ** Further properties: removal of terrestrial contaminants *)
(* ===================================================================== *)

(** The test is a case-insensitive substring test, so it also flags marine
    genera whose name embeds an indicator. *)
Example is_contaminant_examples :
  is_contaminant "Bacillus_subtilis" = true
  /\ is_contaminant "STREPTOMYCES sp." = true
  /\ is_contaminant "Oceanobacillus_iheyensis" = true
  /\ is_contaminant "SAR11_clade" = false
  /\ is_contaminant "Planctomycetes" = false.
Proof. repeat split; reflexivity. Qed.

Lemma in_list_true_iff (x : string) (xs : list string) :
  in_list x xs = true <-> In x xs.
Proof.
  unfold in_list. rewrite existsb_exists. split.
  - intros [y [Hy Heq]]. apply String.eqb_eq in Heq. now subst.
  - intros Hin. exists x. split; [exact Hin | apply String.eqb_refl].
Qed.

Lemma set_add_fresh (s : list string) (x : string) :
  ~ In x s -> set_add s x = s ++ [x].
Proof.
  intros Hnot. unfold set_add.
  destruct (in_list x s) eqn:Hin; [ | reflexivity ].
  apply in_list_true_iff in Hin. contradiction.
Qed.

Lemma setitem_fresh {V : Type} (d : dict V) (k : string) (v : V) :
  ~ In k (keys d) -> setitem d k v = d ++ [(k, v)].
Proof.
  induction d as [| [k' v'] d IH]; intros Hnot; [reflexivity | ].
  cbn [setitem]. cbn in Hnot.
  destruct (String.eqb k k') eqn:Heq.
  - apply String.eqb_eq in Heq. subst. elim Hnot. now left.
  - cbn [app]. f_equal. apply IH. intros Hin. apply Hnot. now right.
Qed.

Lemma map_fst_filter {V : Type} (f : string -> bool) (d : dict V) :
  keys (filter (fun kv => f (fst kv)) d) = filter f (keys d).
Proof.
  unfold keys. induction d as [| [k v] d IH]; [reflexivity | ].
  cbn. destruct (f k); cbn; now rewrite IH.
Qed.

(** The loop, started from any state whose keys are disjoint from the
    taxa still to come, appends the kept entries to [cleaned] and the
    flagged names to [removed]. *)
Lemma contamination_loop (items cleaned : Profile) (removed : list string) :
  NoDup (keys items) ->
  (forall k, In k (keys items) -> ~ In k (keys cleaned) /\ ~ In k removed) ->
  fold_left contamination_step items (cleaned, removed)
  = (cleaned ++ filter (fun kv => negb (is_contaminant (fst kv))) items,
     removed ++ filter is_contaminant (keys items)).
Proof.
  revert cleaned removed.
  induction items as [| [taxon abundance] items IH];
    intros cleaned removed Hnodup Hfresh.
  - cbn. now rewrite !app_nil_r.
  - cbn [keys map fst] in Hnodup. inversion Hnodup as [| ? ? Hnotin Hrest].
    subst.
    destruct (Hfresh taxon ltac:(now left)) as [Hc Hr].
    cbn [fold_left contamination_step filter keys map fst].
    destruct (is_contaminant taxon) eqn:Hflag; cbn [negb].
    + rewrite set_add_fresh by exact Hr.
      rewrite IH; [ | exact Hrest | ].
      * now rewrite <- app_assoc.
      * intros k Hk. destruct (Hfresh k ltac:(now right)) as [Hkc Hkr].
        split; [exact Hkc | ].
        rewrite in_app_iff. intros [Hin | [Heq | []]]; [auto | ].
        subst. contradiction.
    + rewrite setitem_fresh by exact Hc.
      rewrite IH; [ | exact Hrest | ].
      * now rewrite <- app_assoc.
      * intros k Hk. destruct (Hfresh k ltac:(now right)) as [Hkc Hkr].
        split; [ | exact Hkr ].
        unfold keys. rewrite map_app, in_app_iff.
        intros [Hin | [Heq | []]]; [auto | ].
        cbn in Heq. subst. contradiction.
Qed.

(** The loop as two filters. *)
Lemma contamination_filter_eq
  (profile : Profile) (config : Config) :
  NoDup (keys profile) ->
  remove_terrestrial_contamination profile config
  = Returns
      (renormalize
         (filter (fun kv => negb (is_contaminant (fst kv))) profile),
       filter is_contaminant (keys profile)).
Proof.
  intros Hnodup.
  assert (Hloop := contamination_loop profile [] [] Hnodup
                     (fun k _ => conj (fun H : In k [] => H)
                                      (fun H : In k [] => H))).
  unfold remove_terrestrial_contamination.
  destruct (fold_left _ _ _) as [cleaned removed] eqn:Hfold.
  injection Hloop as -> ->. reflexivity.
Qed.

(** X20: what the loop computes.  For a dictionary (distinct keys), the
    cleaned profile is the entries whose name matches no indicator, in
    their order, renormalised; the removed set is the names that match. *)
Theorem remove_terrestrial_contamination_filter
  (profile : Profile) (config : Config) :
  NoDup (keys profile) ->
  remove_terrestrial_contamination profile config
  = Returns
      (renormalize
         (filter (fun kv => negb (is_contaminant (fst kv))) profile),
       filter is_contaminant (keys profile)).
Proof. exact (contamination_filter_eq profile config). Qed.

Lemma remove_terrestrial_contamination_filter_witness :
  remove_terrestrial_contamination
    [("SAR11_clade", 0.5); ("Bacillus_subtilis", 0.5)]%string []
  = Returns
      (renormalize
         (filter (fun kv => negb (is_contaminant (fst kv)))
                 [("SAR11_clade", 0.5); ("Bacillus_subtilis", 0.5)]%string),
       filter is_contaminant
              (keys [("SAR11_clade", 0.5);
                     ("Bacillus_subtilis", 0.5)]%string)).
Proof.
  apply (remove_terrestrial_contamination_filter
           [("SAR11_clade", 0.5); ("Bacillus_subtilis", 0.5)]%string []).
  repeat constructor; cbn; intuition discriminate.
Defined.

Lemma filter_partition_Permutation {A : Type} (f : A -> bool) (l : list A) :
  Permutation (filter (fun x => negb (f x)) l ++ filter f l) l.
Proof.
  induction l as [| x l IH]; [constructor | ].
  cbn. destruct (f x); cbn.
  - apply Permutation_sym, Permutation_cons_app, Permutation_sym, IH.
  - now constructor.
Qed.

(** Kept and removed names split the input names. *)
Lemma contamination_partition
  (profile cleaned : Profile) (removed : list string) (config : Config) :
  NoDup (keys profile) ->
  remove_terrestrial_contamination profile config
  = Returns (cleaned, removed) ->
  Permutation (keys cleaned ++ removed) (keys profile)
  /\ Forall (fun t => is_contaminant t = true) removed
  /\ Forall (fun t => is_contaminant t = false) (keys cleaned).
Proof.
  intros Hnodup Hcall.
  rewrite contamination_filter_eq in Hcall by exact Hnodup.
  injection Hcall as <- <-.
  rewrite renormalize_keys.
  rewrite (map_fst_filter (fun t => negb (is_contaminant t)) profile).
  split; [apply filter_partition_Permutation | ].
  split; apply Forall_forall; intros t Ht; apply filter_In in Ht.
  - tauto.
  - destruct Ht as [_ Ht]. now apply negb_true_iff in Ht.
Qed.

(** X21: no taxon is lost or invented: the names kept in the cleaned
    profile together with the removed names are the names of the input,
    each once; a removed name matches an indicator and a kept one does
    not. *)
Theorem remove_terrestrial_contamination_partition
  (profile cleaned : Profile) (removed : list string) (config : Config) :
  NoDup (keys profile) ->
  remove_terrestrial_contamination profile config
  = Returns (cleaned, removed) ->
  Permutation (keys cleaned ++ removed) (keys profile)
  /\ Forall (fun t => is_contaminant t = true) removed
  /\ Forall (fun t => is_contaminant t = false) (keys cleaned).
Proof. exact (contamination_partition profile cleaned removed config). Qed.

Lemma remove_terrestrial_contamination_partition_witness :
  Permutation
    (keys (renormalize [("SAR11_clade", 0.5)]%string)
     ++ ["Bacillus_subtilis"]%string)
    (keys [("SAR11_clade", 0.5); ("Bacillus_subtilis", 0.5)]%string).
Proof.
  apply (remove_terrestrial_contamination_partition
           [("SAR11_clade", 0.5); ("Bacillus_subtilis", 0.5)]%string
           (renormalize [("SAR11_clade", 0.5)]%string)
           ["Bacillus_subtilis"]%string []).
  - repeat constructor; cbn; intuition discriminate.
  - reflexivity.
Defined.

Lemma filter_keep_clean (c : Profile) :
  Forall (fun t => is_contaminant t = false) (keys c) ->
  filter (fun kv => negb (is_contaminant (fst kv))) c = c
  /\ filter is_contaminant (keys c) = [].
Proof.
  intros Hclean. split.
  - apply filter_all_true. unfold keys in Hclean.
    rewrite Forall_map in Hclean.
    eapply Forall_impl; [ | exact Hclean ]. cbn. intros kv ->. reflexivity.
  - now apply filter_all_false.
Qed.

(** X22: when no abundance is negative and the taxa that match no
    indicator carry a positive total, the cleaned profile is a
    distribution. *)
Theorem remove_terrestrial_contamination_distribution
  (profile : Profile) (config : Config) :
  NoDup (keys profile) ->
  Forall (fun kv : string * R => 0 <= snd kv) profile ->
  0 < Py.sum (values (filter (fun kv => negb (is_contaminant (fst kv)))
                             profile)) ->
  exists (cleaned : Profile) (removed : list string),
    remove_terrestrial_contamination profile config
    = Returns (cleaned, removed)
    /\ is_distribution cleaned.
Proof.
  intros Hnodup Hnn Hpos.
  rewrite contamination_filter_eq by exact Hnodup.
  do 2 eexists. split; [reflexivity | ]. split.
  - apply renormalize_nonneg. now apply Forall_filter.
  - now apply renormalize_positive.
Qed.

Lemma remove_terrestrial_contamination_distribution_witness :
  exists (cleaned : Profile) (removed : list string),
    remove_terrestrial_contamination
      [("SAR11_clade", 0.3); ("Bacillus_subtilis", 0.5);
       ("Thaumarchaeota", 0.2)]%string []
    = Returns (cleaned, removed)
    /\ is_distribution cleaned.
Proof.
  apply (remove_terrestrial_contamination_distribution
           [("SAR11_clade", 0.3); ("Bacillus_subtilis", 0.5);
            ("Thaumarchaeota", 0.2)]%string []).
  - repeat constructor; cbn; intuition discriminate.
  - repeat constructor; cbn; lra.
  - change (0 < Py.sum (values [("SAR11_clade", 0.3);
                                ("Thaumarchaeota", 0.2)]%string)).
    unfold Py.sum. cbn. lra.
Defined.

(** X23: cleaning is idempotent: a second pass over the cleaned profile
    removes nothing and returns that profile unchanged. *)
Theorem remove_terrestrial_contamination_idempotent
  (profile cleaned : Profile) (removed : list string) (config : Config) :
  NoDup (keys profile) ->
  remove_terrestrial_contamination profile config
  = Returns (cleaned, removed) ->
  remove_terrestrial_contamination cleaned config = Returns (cleaned, []).
Proof.
  intros Hnodup Hcall.
  destruct (contamination_partition
              profile cleaned removed config Hnodup Hcall)
    as (_ & _ & Hclean).
  rewrite contamination_filter_eq in Hcall by exact Hnodup.
  injection Hcall as Hc _.
  assert (Hnodup' : NoDup (keys cleaned)).
  { rewrite <- Hc, renormalize_keys.
    rewrite (map_fst_filter (fun t => negb (is_contaminant t)) profile).
    now apply NoDup_filter. }
  rewrite contamination_filter_eq by exact Hnodup'.
  destruct (filter_keep_clean cleaned Hclean) as [-> ->].
  do 2 f_equal. rewrite <- Hc. apply renormalize_idempotent.
Qed.

Lemma remove_terrestrial_contamination_idempotent_witness :
  remove_terrestrial_contamination
    (renormalize [("SAR11_clade", 0.5)]%string) []
  = Returns (renormalize [("SAR11_clade", 0.5)]%string, []).
Proof.
  apply (remove_terrestrial_contamination_idempotent
           [("SAR11_clade", 0.5); ("Bacillus_subtilis", 0.5)]%string
           (renormalize [("SAR11_clade", 0.5)]%string)
           ["Bacillus_subtilis"]%string []).
  - repeat constructor; cbn; intuition discriminate.
  - reflexivity.
Defined.

(** X24: a sample in which every taxon matches an indicator is not
    rejected: the call returns an empty profile and all the names as
    removed. *)
Theorem remove_terrestrial_contamination_all_flagged
  (profile : Profile) (config : Config) :
  NoDup (keys profile) ->
  Forall (fun kv : string * R => is_contaminant (fst kv) = true) profile ->
  remove_terrestrial_contamination profile config
  = Returns ([], keys profile).
Proof.
  intros Hnodup Hall.
  rewrite contamination_filter_eq by exact Hnodup.
  rewrite (filter_all_false
             (fun kv : string * R => negb (is_contaminant (fst kv))) profile).
  2:{ eapply Forall_impl; [ | exact Hall ]. cbn. intros kv ->. reflexivity. }
  rewrite (filter_all_true is_contaminant (keys profile)).
  2:{ unfold keys. now apply Forall_map. }
  rewrite renormalize_not_positive; [reflexivity | ].
  rewrite sum_values_nil. lra.
Qed.

Lemma remove_terrestrial_contamination_all_flagged_witness :
  remove_terrestrial_contamination
    [("Escherichia_coli", 0.6); ("Chloroplast", 0.4)]%string []
  = Returns ([], ["Escherichia_coli"; "Chloroplast"]%string).
Proof.
  apply (remove_terrestrial_contamination_all_flagged
           [("Escherichia_coli", 0.6); ("Chloroplast", 0.4)]%string []).
  - repeat constructor; cbn; intuition discriminate.
  - repeat constructor.
Defined.

(** X25: a profile of total 1 in which no taxon matches an indicator
    passes through unchanged, with nothing removed. *)
Theorem remove_terrestrial_contamination_clean
  (profile : Profile) (config : Config) :
  NoDup (keys profile) ->
  Forall (fun kv : string * R => is_contaminant (fst kv) = false) profile ->
  Py.sum (values profile) = 1 ->
  remove_terrestrial_contamination profile config = Returns (profile, []).
Proof.
  intros Hnodup Hclean H1.
  rewrite contamination_filter_eq by exact Hnodup.
  assert (Hkeys : Forall (fun t => is_contaminant t = false) (keys profile)).
  { unfold keys. now apply Forall_map. }
  destruct (filter_keep_clean profile Hkeys) as [-> ->].
  now rewrite renormalize_total_one.
Qed.

Lemma mock_profile_keys_distinct (depth_meters : option R) :
  NoDup (keys (generate_mock_marine_profile depth_meters)).
Proof.
  unfold generate_mock_marine_profile.
  destruct (match depth_meters with
            | Some d => Rltb d 200
            | None => true
            end);
    repeat constructor; cbn; intuition discriminate.
Qed.

Lemma mock_profile_distribution (depth_meters : option R) :
  is_distribution (generate_mock_marine_profile depth_meters).
Proof.
  unfold generate_mock_marine_profile, is_distribution.
  destruct (match depth_meters with
            | Some d => Rltb d 200
            | None => true
            end);
    (split; [repeat constructor; cbn; lra | unfold Py.sum; cbn; lra]).
Qed.

Lemma mock_profile_clean (depth_meters : option R) :
  Forall (fun kv : string * R => is_contaminant (fst kv) = false)
         (generate_mock_marine_profile depth_meters).
Proof.
  unfold generate_mock_marine_profile.
  destruct (match depth_meters with
            | Some d => Rltb d 200
            | None => true
            end);
    repeat constructor.
Qed.

Lemma remove_terrestrial_contamination_clean_witness :
  remove_terrestrial_contamination
    (generate_mock_marine_profile (Some 2000)) []
  = Returns (generate_mock_marine_profile (Some 2000), []).
Proof.
  apply (remove_terrestrial_contamination_clean
           (generate_mock_marine_profile (Some 2000)) []).
  - apply mock_profile_keys_distinct.
  - apply mock_profile_clean.
  - apply mock_profile_distribution.
Defined.

(* ===================================================================== *)
(** ** Further properties: the profiling stage *)
(* ===================================================================== *)

Lemma richness_all_positive (profile : Profile) (m : DiversityMetrics) :
  Forall (fun kv : string * R => 0 < snd kv) profile ->
  calculate_marine_diversity profile = Returns m ->
  richness m = List.length profile.
Proof.
  intros Hpos. unfold calculate_marine_diversity. rewrite np_mask_gt.
  rewrite (filter_all_true (fun x => Rltb 0 x) (values profile)).
  2:{ unfold values. apply Forall_map.
      eapply Forall_impl; [ | exact Hpos ]. cbn. intros kv Hkv.
      now apply Rltb_true. }
  intros H. injection H as <-. cbn [richness]. unfold values.
  apply length_map.
Qed.

Lemma mock_profile_positive (depth_meters : option R) :
  Forall (fun kv : string * R => 0 < snd kv)
         (generate_mock_marine_profile depth_meters)
  /\ List.length (generate_mock_marine_profile depth_meters) = 9%nat.
Proof.
  unfold generate_mock_marine_profile.
  destruct (match depth_meters with
            | Some d => Rltb d 200
            | None => true
            end);
    (split; [repeat constructor; cbn; lra | reflexivity]).
Qed.

Lemma truthy_some (d : R) : d <> 0 -> truthy (Some d) = true.
Proof.
  intros Hd. unfold truthy. destruct (Req_dec_T d 0); [contradiction | ].
  reflexivity.
Qed.

Lemma truthy_zero : truthy (Some 0) = false.
Proof.
  unfold truthy. destruct (Req_dec_T 0 0) as [_ | H]; [reflexivity | ].
  now elim H.
Qed.

(** The logging block never changes the outcome. *)
Lemma profile_marine_taxa_eq
  (input_sequences output_profile : string) (config : Config)
  (depth_meters : option R) (educational_mode : bool) :
  exists m : DiversityMetrics,
    calculate_marine_diversity (generate_mock_marine_profile depth_meters)
    = Returns m
    /\ profile_marine_taxa input_sequences output_profile config
         depth_meters educational_mode
       = Returns
           {| total_sequences := 8000;
              classified_sequences := 7200;
              taxonomic_profile := generate_mock_marine_profile depth_meters;
              diversity_metrics := m;
              depth_zone :=
                match depth_meters with
                | Some d =>
                    if truthy depth_meters
                    then match get_depth_zone d with
                         | Returns z => Some z
                         | Raises _ => None
                         end
                    else None
                | None => None
                end;
              contamination_removed := 0 |}.
Proof.
  destruct (calculate_marine_diversity_returns
              (generate_mock_marine_profile depth_meters)) as [m Hm].
  exists m. split; [exact Hm | ].
  unfold profile_marine_taxa.
  destruct depth_meters as [d | ].
  - destruct (get_depth_zone_returns d) as [z Hz].
    rewrite Hz, Hm.
    destruct educational_mode, (truthy (Some d)); reflexivity.
  - rewrite Hm. destruct educational_mode; reflexivity.
Qed.

(** X26: the stage is a placeholder.  Whatever the input file, the output
    path, the configuration and the mode, it returns 8000 sequences, 7200
    classified and no contamination removed; the profile is one of the two
    built-in ones, a distribution over nine taxa, and the metrics reported
    are those of that profile, within their ranges. *)
Theorem profile_marine_taxa_placeholder
  (input_sequences output_profile : string) (config : Config)
  (depth_meters : option R) (educational_mode : bool) :
  exists r : ProfilingResults,
    profile_marine_taxa input_sequences output_profile config
      depth_meters educational_mode
    = Returns r
    /\ total_sequences r = 8000%Z
    /\ classified_sequences r = 7200%Z
    /\ contamination_removed r = 0%Z
    /\ taxonomic_profile r = generate_mock_marine_profile depth_meters
    /\ is_distribution (taxonomic_profile r)
    /\ calculate_marine_diversity (taxonomic_profile r)
       = Returns (diversity_metrics r)
    /\ richness (diversity_metrics r) = 9%nat
    /\ 0 <= shannon (diversity_metrics r) <= ln 9
    /\ 0 <= pielou_evenness (diversity_metrics r) <= 1.
Proof.
  destruct (profile_marine_taxa_eq input_sequences output_profile config
              depth_meters educational_mode) as (m & Hm & Hcall).
  eexists. split; [exact Hcall | ].
  cbn [total_sequences classified_sequences contamination_removed
       taxonomic_profile diversity_metrics].
  destruct (mock_profile_positive depth_meters) as [Hpos Hlen].
  pose proof (richness_all_positive _ m Hpos Hm) as Hrich.
  rewrite Hlen in Hrich.
  destruct (diversity_ranges_of_distribution
              _ (mock_profile_distribution depth_meters))
    as (m' & Hm' & _ & Hsh & Hpi & _).
  rewrite Hm in Hm'. injection Hm' as <-.
  rewrite Hrich in Hsh.
  replace (INR 9) with 9 in Hsh by (cbn; lra).
  repeat split; try reflexivity; try assumption;
    try apply mock_profile_distribution; try apply Hsh; try apply Hpi.
Qed.

(** X27: the zone reported for a depth.  A depth other than 0 gets the
    zone [get_depth_zone] gives it.  A missing depth and a depth of exactly
    0 m are both reported as 'unknown', although the profile returned for
    them is the surface one. *)
Theorem profile_marine_taxa_depth_zone
  (input_sequences output_profile : string) (config : Config)
  (educational_mode : bool) :
  (forall (d : R) (z : DepthZone),
      d <> 0 -> get_depth_zone d = Returns z ->
      exists r : ProfilingResults,
        profile_marine_taxa input_sequences output_profile config
          (Some d) educational_mode
        = Returns r
        /\ depth_zone r = Some z)
  /\ (forall depth_meters : option R,
        depth_meters = None \/ depth_meters = Some 0 ->
        exists r : ProfilingResults,
          profile_marine_taxa input_sequences output_profile config
            depth_meters educational_mode
          = Returns r
          /\ depth_zone r = None
          /\ taxonomic_profile r = generate_mock_marine_profile None).
Proof.
  split.
  - intros d z Hd Hz.
    destruct (profile_marine_taxa_eq input_sequences output_profile config
                (Some d) educational_mode) as (m & _ & Hcall).
    eexists. split; [exact Hcall | ].
    cbn [depth_zone]. now rewrite truthy_some, Hz.
  - intros depth_meters Hdepth.
    destruct (profile_marine_taxa_eq input_sequences output_profile config
                depth_meters educational_mode) as (m & _ & Hcall).
    eexists. split; [exact Hcall | ].
    cbn [depth_zone taxonomic_profile].
    destruct Hdepth as [-> | ->]; [split; reflexivity | ].
    rewrite truthy_zero. split; [reflexivity | ].
    unfold generate_mock_marine_profile. now rewrite Rltb_true by lra.
Qed.

Lemma profile_marine_taxa_depth_zone_witness :
  exists r : ProfilingResults,
    profile_marine_taxa "reads.fasta" "profile.json" [] (Some 2000) true
    = Returns r
    /\ depth_zone r = Some bathypelagic.
Proof.
  apply (proj1 (profile_marine_taxa_depth_zone
                  "reads.fasta" "profile.json" [] true) 2000 bathypelagic).
  - lra.
  - unfold get_depth_zone. now decide_cmp.
Defined.

(** X28: the zone test uses [<= 200] and the choice of the built-in
    profile uses [< 200].  For a depth other than 0, the stage reports the
    euphotic zone together with a profile other than the surface one at
    exactly one depth, 200 m. *)
Theorem profile_marine_taxa_boundary_mismatch
  (input_sequences output_profile : string) (config : Config)
  (educational_mode : bool) (d : R) (r : ProfilingResults) :
  d <> 0 ->
  profile_marine_taxa input_sequences output_profile config
    (Some d) educational_mode
  = Returns r ->
  (depth_zone r = Some euphotic
   /\ taxonomic_profile r <> generate_mock_marine_profile None
   <-> d = 200).
Proof.
  intros Hd Hcall.
  destruct (profile_marine_taxa_eq input_sequences output_profile config
              (Some d) educational_mode) as (m & _ & Heq).
  rewrite Heq in Hcall. injection Hcall as <-.
  cbn [depth_zone taxonomic_profile].
  destruct (Req_dec_T d 0) as [H0 | _]; [contradiction | ].
  destruct (get_depth_zone_returns d) as [z Hz]. rewrite Hz.
  pose proof (get_depth_zone_band d z Hz) as Hband.
  unfold generate_mock_marine_profile.
  split.
  - intros [Hzone Hprofile]. injection Hzone as ->.
    destruct (Rlt_dec d 200) as [Hlt | Hge]; [ | lra ].
    rewrite Rltb_true in Hprofile by exact Hlt. now elim Hprofile.
  - intros ->. rewrite Rltb_false by lra.
    assert (Hz200 : get_depth_zone 200 = Returns euphotic).
    { unfold get_depth_zone. now decide_cmp. }
    rewrite Hz200 in Hz. injection Hz as <-.
    split; [reflexivity | discriminate].
Qed.

Lemma profile_marine_taxa_boundary_mismatch_witness :
  exists r : ProfilingResults,
    profile_marine_taxa "reads.fasta" "profile.json" [] (Some 200) false
    = Returns r
    /\ depth_zone r = Some euphotic
    /\ taxonomic_profile r <> generate_mock_marine_profile None.
Proof.
  destruct (profile_marine_taxa_eq
              "reads.fasta" "profile.json" [] (Some 200) false)
    as (m & _ & Hcall).
  eexists. split; [exact Hcall | ].
  apply (proj2 (profile_marine_taxa_boundary_mismatch
                  "reads.fasta" "profile.json" [] false 200 _
                  ltac:(lra) Hcall)).
  reflexivity.
Defined.

(* ===================================================================== *)
(** ** Further properties: environmental corrections of pathways *)
(* ===================================================================== *)

Import Humann3Execution.

Lemma eq_map_pointwise {A : Type} (f : A -> A) (l : list A) :
  (forall x, f x = x) -> l = map f l.
Proof.
  intros Hf. rewrite <- (map_id l) at 1. apply map_ext.
  intros x. now rewrite Hf.
Qed.

(** Decide, innermost first, the tests a goal branches on. *)
Ltac decide_tests :=
  repeat (match goal with
          | |- context [if ?b then _ else _] =>
              lazymatch b with
              | context [if _ then _ else _] => fail
              | _ => destruct b eqn:?
              end
          end; cbn [fst snd andb] in *).

(** X29: the three corrections compose by multiplication.  Every pathway
    keeps its place and name, and its abundance is multiplied by the
    product of the factors of the steps that apply to it: the Q10 factor
    when a temperature is given and the name mentions metabolism or
    respiration, 0.7 when the salinity is below 30 and the name mentions
    osmotic or salt, 1.5 when the depth exceeds 1000 and the name mentions
    pressure or piezophile. *)
Theorem apply_environmental_corrections_product
  (abundances metadata : dict R) :
  apply_environmental_corrections abundances metadata
  = Returns
      (map (fun kv : string * R =>
              (fst kv, snd kv * pathway_factor metadata (fst kv)))
           abundances).
Proof.
  unfold apply_environmental_corrections, pathway_factor, scale_matching.
  f_equal.
  destruct (get metadata "temperature") as [temp | ];
    destruct (get metadata "salinity") as [salinity | ];
    destruct (get metadata "depth") as [depth | ];
    try destruct (Rltb salinity 30); try destruct (Rltb 1000 depth);
    cbn [andb]; rewrite ?map_map;
    first [ apply map_ext | apply eq_map_pointwise ];
    intros [k v]; cbn [fst snd];
    decide_tests; try discriminate; f_equal; lra.
Qed.

(** X30: the temperature step is a rate doubling per 10 degrees anchored
    at 20 degrees.  With only a temperature in the metadata, the result at
    20 degrees is the input itself, and the result at [temp + 10] is the
    result at [temp] with the abundance of every pathway that mentions
    metabolism or respiration doubled. *)
Theorem apply_environmental_corrections_q10
  (abundances : dict R) (temp : R) :
  apply_environmental_corrections abundances [("temperature", 20)]%string
  = Returns abundances
  /\ exists at_temp : dict R,
       apply_environmental_corrections
         abundances [("temperature", temp)]%string
       = Returns at_temp
       /\ apply_environmental_corrections
            abundances [("temperature", temp + 10)]%string
          = Returns
              (scale_matching
                 (any_term_in ["metabolism"; "respiration"]%string)
                 2 at_temp).
Proof.
  unfold apply_environmental_corrections.
  cbn [get String.eqb Ascii.eqb Bool.eqb].
  split.
  - f_equal. unfold scale_matching.
    rewrite <- (map_id abundances) at 2. apply map_ext.
    intros [k v]. cbn [fst snd].
    destruct (any_term_in _ k); [ | reflexivity ].
    f_equal. replace ((20 - 20) / 10) with 0 by lra.
    rewrite Rpower_O by lra. lra.
  - eexists. split; [reflexivity | ]. f_equal.
    unfold scale_matching. rewrite map_map. apply map_ext.
    intros [k v]. cbn [fst snd].
    destruct (any_term_in _ k) eqn:Hk; cbn [fst snd]; rewrite Hk;
      [ | reflexivity ].
    f_equal.
    replace ((temp + 10 - 20) / 10) with ((temp - 20) / 10 + 1) by lra.
    rewrite Rpower_plus, Rpower_1 by lra. lra.
Qed.
